(** * cse.flags: named bit-flag sets and their query-parameter encoding

    A shallow embedding of [src/cse/flags.py]: the descriptor
    [_flag_property], the base class [BaseFlags] with its factories,
    attribute protocol and [to_google_flags], and the two flag tables
    [Language] and [CountryCode].

    Python integers are [Z]; [&], [|], [~] and [<<] are [Z.land], [Z.lor],
    [Z.lnot] and [Z.shiftl].  Python strings are [string].  A raised
    exception is the [Raise] case of [result]. *)

From Stdlib Require Import ZArith List String Ascii Bool Lia Permutation.
From Stdlib Require Import Orders Sorting.Sorted Sorting.Mergesort QArith.
Import ListNotations.

Local Open Scope Z_scope.
Local Open Scope string_scope.

Notation "a << b" := (Z.shiftl a b) (at level 35) : Z_scope.

(** ** Exceptions

    [AttributeError name] is an [AttributeError] whose message carries the
    name of the attribute: the guards of [BaseFlags] raise
    [AttributeError(name)], the built-in assignment to a read-only
    attribute words the name into a sentence.  [CantSetAttribute] is the
    [AttributeError] of a property without a setter, whose message
    ([can't set attribute]) holds no name on the interpreters the package
    declares (Python 3.7 to 3.9).  [TypeError name] is the refusal of a
    value that is not a class for [__class__]. *)

Inductive exn : Type :=
| AttributeError (name : string)
| CantSetAttribute
| TypeError (name : string)
| ValueError.

Inductive result (A : Type) : Type :=
| Ok (a : A)
| Raise (e : exn).

Arguments Ok {A} a.
Arguments Raise {A} e.

Definition bind {A B : Type} (r : result A) (k : A -> result B) : result B :=
  match r with
  | Ok a => k a
  | Raise e => Raise e
  end.

Notation "x <- r ;; k" := (bind r (fun x => k))
  (at level 61, r at next level, right associativity).


(** ** The descriptor [_flag_property]

    [fp_name] is [_original_func.__name__], [fp_doc] the docstring copied
    into [__doc__], and [fp_flag] what [_original_func(None)] returns. *)

Record flag_property : Type := flag {
  fp_name : string;
  fp_doc : string;
  fp_flag : Z
}.

(** A subclass of [BaseFlags]: the [_flag_property] members of its body in
    source order (the only members [__init_subclass__] keeps), the names
    of its properties without a setter, and the names of every other
    attribute an instance shows (methods, class variables), [value] and
    [__class__] apart.  A class body binds a name once; [wf_class] below
    says so. *)

Record flags_class : Type := {
  cls_body : list flag_property;
  cls_properties : list string;
  cls_other : list string
}.

(** Instances have the single slot [value], declared [value: int]. *)

Record instance : Type := { value : Z }.

(** ** Payloads

    What a keyword of [from_flags] or an assignment carries.  The slot is
    declared [value: int] and the flag setters take a [bool], which is an
    [int] in Python: a payload is an integer object, read through its
    truth value by [_set_flag] and stored as it is in [value].  [True]
    and [False] are kept as 1 and 0: no operation the module applies to
    [value] ([==], [&], [|], [~], [bin]) tells them apart. *)

Class PyInt (A : Type) : Type := {
  truth : A -> bool;
  as_int : A -> Z
}.

#[global] Instance PyInt_bool : PyInt bool :=
  {| truth := fun b => b; as_int := Z.b2z |}.

#[global] Instance PyInt_int : PyInt Z :=
  {| truth := fun n => negb (Z.eqb n 0); as_int := fun n => n |}.

#[global] Instance PyInt_either : PyInt (bool + Z) :=
  {| truth := fun v => match v with inl b => b | inr n => negb (Z.eqb n 0) end;
     as_int := fun v => match v with inl b => Z.b2z b | inr n => n end |}.

(** ** Registration: [__init_subclass__]

    [inspect.getmembers] returns the members sorted by name; Python orders
    strings by code point, as [String.leb] does. *)

Module NameOrder <: TotalLeBool.
Definition t := flag_property.
Definition leb (p q : t) : bool := String.leb (fp_name p) (fp_name q).
Lemma leb_total : forall p q, leb p q = true \/ leb q p = true.
Proof. intros p q. apply String.leb_total. Qed.
End NameOrder.

Module NameSort := Sort NameOrder.

Definition getmembers (cls : flags_class) : list flag_property :=
  NameSort.sort (cls_body cls).

Definition __init_subclass__ (cls : flags_class) : list string :=
  map fp_name (getmembers cls).

Definition flag_values (cls : flags_class) : list string :=
  __init_subclass__ cls.

Definition len {A : Type} (l : list A) : Z := Z.of_nat (List.length l).

(** ** Attribute lookup

    [class_getattr] is [getattr(cls, name)] restricted to the flag
    descriptors.  An instance attribute is a flag descriptor, the slot
    [value], the class pointer [__class__], a property without a setter,
    or one of [cls_other], which the built-in assignment refuses on an
    object without a dict.
    [hasattr] is taken on an instance whose [value] is set, as every
    factory leaves it. *)

Definition class_getattr (cls : flags_class) (name : string)
  : option flag_property :=
  find (fun p => String.eqb (fp_name p) name) (cls_body cls).

Inductive attribute : Type :=
| FlagAttr (p : flag_property)
| ValueSlot
| ClassPointer
| PropertyAttr
| ReadOnlyAttr.

Definition find_attribute (cls : flags_class) (name : string)
  : option attribute :=
  match class_getattr cls name with
  | Some p => Some (FlagAttr p)
  | None =>
      if String.eqb name "value" then Some ValueSlot
      else if String.eqb name "__class__" then Some ClassPointer
      else if existsb (String.eqb name) (cls_properties cls)
      then Some PropertyAttr
      else if existsb (String.eqb name) (cls_other cls) then Some ReadOnlyAttr
      else None
  end.

Definition hasattr (cls : flags_class) (self : instance) (name : string)
  : bool :=
  match find_attribute cls name with
  | Some _ => true
  | None => false
  end.

(** ** [BaseFlags] *)

Definition _from_value (v : Z) : instance := {| value := v |}.

Definition _has_flag (self : instance) (flag : Z) : bool :=
  Z.eqb (Z.land (value self) flag) flag.

Definition _set_flag {A : Type} `{PyInt A} (self : instance) (flag : Z)
  (toggle : A) : instance :=
  if truth toggle then {| value := Z.lor (value self) flag |}
  else {| value := Z.land (value self) (Z.lnot flag) |}.

(** [_flag_property.__get__] and [__set__] on an instance. *)

Definition __get__ (p : flag_property) (self : instance) : bool :=
  _has_flag self (fp_flag p).

Definition __set__ {A : Type} `{PyInt A} (p : flag_property)
  (self : instance) (v : A) : instance :=
  _set_flag self (fp_flag p) v.

(** [getattr(self, name)] for a flag name.  [get] and [doc] are
    [getattr(self, name)] and [getattr(cls, name).__doc__] inside the
    iteration, where the names come from [flag_values] and always resolve
    ([class_getattr_flag_values]); their last case is never reached
    there. *)

Definition getattr (cls : flags_class) (self : instance) (name : string)
  : result bool :=
  match class_getattr cls name with
  | Some p => Ok (__get__ p self)
  | None => Raise (AttributeError name)
  end.

Definition get (cls : flags_class) (self : instance) (name : string) : bool :=
  match class_getattr cls name with
  | Some p => __get__ p self
  | None => false
  end.

Definition doc (cls : flags_class) (name : string) : string :=
  match class_getattr cls name with
  | Some p => fp_doc p
  | None => EmptyString
  end.

(** [super().__setattr__]: the built-in assignment on a slotted object.
    The slot [value] takes the payload as it is. *)

Definition object_setattr {A : Type} `{PyInt A} (cls : flags_class)
  (self : instance) (name : string) (v : A) : result instance :=
  match find_attribute cls name with
  | Some (FlagAttr p) => Ok (__set__ p self v)
  | Some ValueSlot => Ok {| value := as_int v |}
  | Some ClassPointer => Raise (TypeError name)
  | Some PropertyAttr => Raise CantSetAttribute
  | Some ReadOnlyAttr => Raise (AttributeError name)
  | None => Raise (AttributeError name)
  end.

Definition __setattr__ {A : Type} `{PyInt A} (cls : flags_class)
  (self : instance) (name : string) (v : A) : result instance :=
  if negb (hasattr cls self name) && negb (String.eqb name "value")
  then Raise (AttributeError name)
  else object_setattr cls self name v.

Definition __dict__ (cls : flags_class) (self : instance)
  : list (string * bool) :=
  map (fun name => (name, get cls self name)) (flag_values cls).

Definition __iter__ (cls : flags_class) (self : instance)
  : list (string * bool) :=
  __dict__ cls self.

(** [int(s, 2)] on a string of binary digits; [None] is [ValueError]. *)

Fixpoint int2_digits (acc : Z) (s : string) : option Z :=
  match s with
  | EmptyString => Some acc
  | String c rest =>
      if Ascii.eqb c "0" then int2_digits (2 * acc) rest
      else if Ascii.eqb c "1" then int2_digits (2 * acc + 1) rest
      else None
  end.

Definition int2 (s : string) : option Z :=
  match s with
  | EmptyString => None
  | _ => int2_digits 0 s
  end.

Fixpoint str_repeat (s : string) (n : nat) : string :=
  match n with
  | O => EmptyString
  | S m => s ++ str_repeat s m
  end.

Definition all (cls : flags_class) : result instance :=
  match int2 (str_repeat "1" (List.length (flag_values cls))) with
  | Some v => Ok (_from_value v)
  | None => Raise ValueError
  end.

Definition none (cls : flags_class) : instance := _from_value 0.

Fixpoint from_flags_loop {A : Type} `{PyInt A} (cls : flags_class)
  (self : instance) (flags : list (string * A)) : result instance :=
  match flags with
  | [] => Ok self
  | (name, v) :: rest =>
      if negb (hasattr cls self name) then Raise (AttributeError name)
      else self' <- __setattr__ cls self name v ;;
           from_flags_loop cls self' rest
  end.

Definition from_flags {A : Type} `{PyInt A} (cls : flags_class)
  (flags : list (string * A)) : result instance :=
  from_flags_loop cls (_from_value 0) flags.

Definition _all_flags_enabled (cls : flags_class) (self : instance) : bool :=
  Z.eqb (value self) ((1 << len (flag_values cls)) - 1).

(** [bin(n)] and [str.count] for a one-character pattern. *)

Fixpoint bin_digits (p : positive) : string :=
  match p with
  | xH => "1"
  | xO q => bin_digits q ++ "0"
  | xI q => bin_digits q ++ "1"
  end.

Definition bin (n : Z) : string :=
  match n with
  | Z0 => "0b0"
  | Zpos p => "0b" ++ bin_digits p
  | Zneg p => "-0b" ++ bin_digits p
  end.

Fixpoint count (s : string) (c : ascii) : nat :=
  match s with
  | EmptyString => O
  | String d rest => if Ascii.eqb d c then S (count rest c) else count rest c
  end.

(** [n > m / 2]: true division gives a float, exact for every [m] below
    2^53, so the comparison is the one of rationals. *)

Definition true_div (a b : Z) : Q := Qdiv (inject_Z a) (inject_Z b).

Definition int_gt (n : nat) (x : Q) : bool :=
  negb (Qle_bool (inject_Z (Z.of_nat n)) x).

Definition join (sep : string) (l : list string) : string :=
  String.concat sep l.

Definition unset_docs (cls : flags_class) (self : instance) : list string :=
  map (fun kv => doc cls (fst kv))
      (filter (fun kv => negb (snd kv)) (__iter__ cls self)).

Definition set_docs (cls : flags_class) (self : instance) : list string :=
  map (fun kv => doc cls (fst kv))
      (filter (fun kv => snd kv) (__iter__ cls self)).

Definition to_google_flags (cls : flags_class) (self : instance)
  : option string :=
  let val := bin (value self) in
  if Z.eqb (value self) 0 || _all_flags_enabled cls self then None
  else if int_gt (count val "1") (true_div (len (flag_values cls)) 2)
  then Some ("-(" ++ join "|" (unset_docs cls self) ++ ")")
  else Some (join "|" (set_docs cls self)).

(** ** The flag tables

    The attributes an instance shows besides its flags, [value] and
    [__class__]: the properties [_all_flags_enabled] of [BaseFlags] and
    [__dict__] of the subclass bodies, the other members of [BaseFlags]
    and of the subclass bodies, and those inherited from [object]. *)

Definition BaseFlags_properties : list string :=
  [ "_all_flags_enabled"; "__dict__" ]%list.

Definition BaseFlags_attributes : list string :=
  [ "__repr__"; "__init_subclass__"; "__setattr__"; "_from_value";
    "_has_flag"; "_set_flag"; "__iter__"; "all"; "none"; "from_flags";
    "to_google_flags"; "__slots__"; "flag_values";
    "__doc__"; "__module__"; "__annotations__" ]%list.

Definition object_attributes : list string :=
  [ "__delattr__"; "__dir__"; "__eq__"; "__format__"; "__ge__";
    "__getattribute__"; "__gt__"; "__hash__"; "__init__"; "__le__";
    "__lt__"; "__ne__"; "__new__"; "__reduce__"; "__reduce_ex__";
    "__sizeof__"; "__str__"; "__subclasshook__" ]%list.

Definition Language_body : list flag_property :=
  [
    flag "arabic" "lang_ar" 1;
    flag "bulgarian" "lang_bg" (1 << 1);
    flag "catalan" "lang_ca" (1 << 2);
    flag "czech" "lang_cs" (1 << 3);
    flag "danish" "lang_da" (1 << 4);
    flag "german" "lang_de" (1 << 5);
    flag "greek" "lang_el" (1 << 6);
    flag "english" "lang_en" (1 << 7);
    flag "spanish" "lang_es" (1 << 8);
    flag "estonian" "lang_et" (1 << 9);
    flag "finnish" "lang_fi" (1 << 10);
    flag "french" "lang_fr" (1 << 11);
    flag "croatian" "lang_hr" (1 << 12);
    flag "hungarian" "lang_hu" (1 << 13);
    flag "indonesian" "lang_id" (1 << 14);
    flag "icelandic" "lang_is" (1 << 15);
    flag "italian" "lang_it" (1 << 16);
    flag "hebrew" "lang_iw" (1 << 17);
    flag "japanese" "lang_ja" (1 << 18);
    flag "korean" "lang_ko" (1 << 19);
    flag "lithuanian" "lang_lt" (1 << 20);
    flag "latvian" "lang_lv" (1 << 21);
    flag "dutch" "lang_nl" (1 << 22);
    flag "norwegian" "lang_no" (1 << 23);
    flag "polish" "lang_pl" (1 << 24);
    flag "portuguese" "lang_pt" (1 << 25);
    flag "romanian" "lang_ro" (1 << 26);
    flag "russian" "lang_ru" (1 << 27);
    flag "slovak" "lang_sk" (1 << 28);
    flag "slovenian" "lang_sl" (1 << 29);
    flag "serbian" "lang_sr" (1 << 30);
    flag "swedish" "lang_sv" (1 << 31);
    flag "turkish" "lang_tr" (1 << 32);
    flag "chinese_simplified" "lang_zh-CN" (1 << 33);
    flag "chinese_traditional" "lang_zh-TW" (1 << 34)
  ]%list.

Definition CountryCode_body : list flag_property :=
  [
    flag "afghanistan" "countryAF" (1 << 0);
    flag "albania" "countryAL" (1 << 1);
    flag "algeria" "countryDZ" (1 << 2);
    flag "american_samoa" "countryAS" (1 << 3);
    flag "andorra" "countryAD" (1 << 4);
    flag "angola" "countryAO" (1 << 5);
    flag "anguilla" "countryAI" (1 << 6);
    flag "antarctica" "countryAQ" (1 << 7);
    flag "antigua_and_barbuda" "countryAG" (1 << 8);
    flag "argentina" "countryAR" (1 << 9);
    flag "armenia" "countryAM" (1 << 10);
    flag "aruba" "countryAW" (1 << 11);
    flag "australia" "countryAU" (1 << 12);
    flag "austria" "countryAT" (1 << 13);
    flag "azerbaijan" "countryAZ" (1 << 14);
    flag "bahamas" "countryBS" (1 << 15);
    flag "bahrain" "countryBH" (1 << 16);
    flag "bangladesh" "countryBD" (1 << 17);
    flag "barbados" "countryBB" (1 << 18);
    flag "belarus" "countryBY" (1 << 19);
    flag "belgium" "countryBE" (1 << 20);
    flag "belize" "countryBZ" (1 << 21);
    flag "benin" "countryBJ" (1 << 22);
    flag "bermuda" "countryBM" (1 << 23);
    flag "bhutan" "countryBT" (1 << 24);
    flag "bolivia" "countryBO" (1 << 25);
    flag "bosnia_and_herzegovina" "countryBA" (1 << 26);
    flag "botswana" "countryBW" (1 << 27);
    flag "bouvet_island" "countryBV" (1 << 28);
    flag "brazil" "countryBR" (1 << 29);
    flag "british_indian_ocean_territory" "countryIO" (1 << 30);
    flag "brunei_darussalam" "countryBN" (1 << 31);
    flag "bulgaria" "countryBG" (1 << 32);
    flag "burkina_faso" "countryBF" (1 << 33);
    flag "burundi" "countryBI" (1 << 34);
    flag "cambodia" "countryKH" (1 << 35);
    flag "cameroon" "countryCM" (1 << 36);
    flag "canada" "countryCA" (1 << 37);
    flag "cape_verde" "countryCV" (1 << 38);
    flag "cayman_islands" "countryKY" (1 << 39);
    flag "central_african_republic" "countryCF" (1 << 40);
    flag "chad" "countryTD" (1 << 41);
    flag "chile" "countryCL" (1 << 42);
    flag "china" "countryCN" (1 << 43);
    flag "christmas_island" "countryCX" (1 << 44);
    flag "cocos_keeling_islands" "countryCC" (1 << 45);
    flag "colombia" "countryCO" (1 << 46);
    flag "comoros" "countryKM" (1 << 47);
    flag "congo" "countryCG" (1 << 48);
    flag "_the_democratic_republic_of_the_congo" "countryCD" (1 << 49);
    flag "cook_islands" "countryCK" (1 << 50);
    flag "costa_rica" "countryCR" (1 << 51);
    flag "cote_divoire" "countryCI" (1 << 52);
    flag "croatia_hrvatska" "countryHR" (1 << 53);
    flag "cuba" "countryCU" (1 << 54);
    flag "cyprus" "countryCY" (1 << 55);
    flag "czech_republic" "countryCZ" (1 << 56);
    flag "denmark" "countryDK" (1 << 57);
    flag "djibouti" "countryDJ" (1 << 58);
    flag "dominica" "countryDM" (1 << 59);
    flag "dominican_republic" "countryDO" (1 << 60);
    flag "east_timor" "countryTP" (1 << 61);
    flag "ecuador" "countryEC" (1 << 62);
    flag "egypt" "countryEG" (1 << 63);
    flag "el_salvador" "countrySV" (1 << 64);
    flag "equatorial_guinea" "countryGQ" (1 << 65);
    flag "eritrea" "countryER" (1 << 66);
    flag "estonia" "countryEE" (1 << 67);
    flag "ethiopia" "countryET" (1 << 68);
    flag "european_union" "countryEU" (1 << 69);
    flag "falkland_islands_malvinas" "countryFK" (1 << 70);
    flag "faroe_islands" "countryFO" (1 << 71);
    flag "fiji" "countryFJ" (1 << 72);
    flag "finland" "countryFI" (1 << 73);
    flag "france" "countryFR" (1 << 74);
    flag "_metropolitan_france" "countryFX" (1 << 75);
    flag "french_guiana" "countryGF" (1 << 76);
    flag "french_polynesia" "countryPF" (1 << 77);
    flag "french_southern_territories" "countryTF" (1 << 78);
    flag "gabon" "countryGA" (1 << 79);
    flag "gambia" "countryGM" (1 << 80);
    flag "georgia" "countryGE" (1 << 81);
    flag "germany" "countryDE" (1 << 82);
    flag "ghana" "countryGH" (1 << 83);
    flag "gibraltar" "countryGI" (1 << 84);
    flag "greece" "countryGR" (1 << 85);
    flag "greenland" "countryGL" (1 << 86);
    flag "grenada" "countryGD" (1 << 87);
    flag "guadeloupe" "countryGP" (1 << 88);
    flag "guam" "countryGU" (1 << 89);
    flag "guatemala" "countryGT" (1 << 90);
    flag "guinea" "countryGN" (1 << 91);
    flag "guinea_bissau" "countryGW" (1 << 92);
    flag "guyana" "countryGY" (1 << 93);
    flag "haiti" "countryHT" (1 << 94);
    flag "heard_island_and_mcdonald_islands" "countryHM" (1 << 95);
    flag "holy_see_vatican_city_state" "countryVA" (1 << 96);
    flag "honduras" "countryHN" (1 << 97);
    flag "hong_kong" "countryHK" (1 << 98);
    flag "hungary" "countryHU" (1 << 99);
    flag "iceland" "countryIS" (1 << 100);
    flag "india" "countryIN" (1 << 101);
    flag "indonesia" "countryID" (1 << 102);
    flag "_islamic_republic_of_iran" "countryIR" (1 << 103);
    flag "iraq" "countryIQ" (1 << 104);
    flag "ireland" "countryIE" (1 << 105);
    flag "israel" "countryIL" (1 << 106);
    flag "italy" "countryIT" (1 << 107);
    flag "jamaica" "countryJM" (1 << 108);
    flag "japan" "countryJP" (1 << 109);
    flag "jordan" "countryJO" (1 << 110);
    flag "kazakhstan" "countryKZ" (1 << 111);
    flag "kenya" "countryKE" (1 << 112);
    flag "kiribati" "countryKI" (1 << 113);
    flag "_democratic_peoples_republic_of_korea" "countryKP" (1 << 114);
    flag "_republic_of_korea" "countryKR" (1 << 115);
    flag "kuwait" "countryKW" (1 << 116);
    flag "kyrgyzstan" "countryKG" (1 << 117);
    flag "lao_peoples_democratic_republic" "countryLA" (1 << 118);
    flag "latvia" "countryLV" (1 << 119);
    flag "lebanon" "countryLB" (1 << 120);
    flag "lesotho" "countryLS" (1 << 121);
    flag "liberia" "countryLR" (1 << 122);
    flag "libyan_arab_jamahiriya" "countryLY" (1 << 123);
    flag "liechtenstein" "countryLI" (1 << 124);
    flag "lithuania" "countryLT" (1 << 125);
    flag "luxembourg" "countryLU" (1 << 126);
    flag "macao" "countryMO" (1 << 127);
    flag "_the_former_yugosalv_republic_of_macedonia" "countryMK" (1 << 128);
    flag "madagascar" "countryMG" (1 << 129);
    flag "malawi" "countryMW" (1 << 130);
    flag "malaysia" "countryMY" (1 << 131);
    flag "maldives" "countryMV" (1 << 132);
    flag "mali" "countryML" (1 << 133);
    flag "malta" "countryMT" (1 << 134);
    flag "marshall_islands" "countryMH" (1 << 135);
    flag "martinique" "countryMQ" (1 << 136);
    flag "mauritania" "countryMR" (1 << 137);
    flag "mauritius" "countryMU" (1 << 138);
    flag "mayotte" "countryYT" (1 << 139);
    flag "mexico" "countryMX" (1 << 140);
    flag "_federated_states_of_micronesia" "countryFM" (1 << 141);
    flag "_republic_of_moldova" "countryMD" (1 << 142);
    flag "monaco" "countryMC" (1 << 143);
    flag "mongolia" "countryMN" (1 << 144);
    flag "montserrat" "countryMS" (1 << 145);
    flag "morocco" "countryMA" (1 << 146);
    flag "mozambique" "countryMZ" (1 << 147);
    flag "myanmar" "countryMM" (1 << 148);
    flag "namibia" "countryNA" (1 << 149);
    flag "nauru" "countryNR" (1 << 150);
    flag "nepal" "countryNP" (1 << 151);
    flag "netherlands" "countryNL" (1 << 152);
    flag "netherlands_antilles" "countryAN" (1 << 153);
    flag "new_caledonia" "countryNC" (1 << 154);
    flag "new_zealand" "countryNZ" (1 << 155);
    flag "nicaragua" "countryNI" (1 << 156);
    flag "niger" "countryNE" (1 << 157);
    flag "nigeria" "countryNG" (1 << 158);
    flag "niue" "countryNU" (1 << 159);
    flag "norfolk_island" "countryNF" (1 << 160);
    flag "northern_mariana_islands" "countryMP" (1 << 161);
    flag "norway" "countryNO" (1 << 162);
    flag "oman" "countryOM" (1 << 163);
    flag "pakistan" "countryPK" (1 << 164);
    flag "palau" "countryPW" (1 << 165);
    flag "palestinian_territory" "countryPS" (1 << 166);
    flag "panama" "countryPA" (1 << 167);
    flag "papua_new_guinea" "countryPG" (1 << 168);
    flag "paraguay" "countryPY" (1 << 169);
    flag "peru" "countryPE" (1 << 170);
    flag "philippines" "countryPH" (1 << 171);
    flag "pitcairn" "countryPN" (1 << 172);
    flag "poland" "countryPL" (1 << 173);
    flag "portugal" "countryPT" (1 << 174);
    flag "puerto_rico" "countryPR" (1 << 175);
    flag "qatar" "countryQA" (1 << 176);
    flag "reunion" "countryRE" (1 << 177);
    flag "romania" "countryRO" (1 << 178);
    flag "russian_federation" "countryRU" (1 << 179);
    flag "rwanda" "countryRW" (1 << 180);
    flag "saint_helena" "countrySH" (1 << 181);
    flag "saint_kitts_and_nevis" "countryKN" (1 << 182);
    flag "saint_lucia" "countryLC" (1 << 183);
    flag "saint_pierre_and_miquelon" "countryPM" (1 << 184);
    flag "saint_vincent_and_the_grenadines" "countryVC" (1 << 185);
    flag "samoa" "countryWS" (1 << 186);
    flag "san_marino" "countrySM" (1 << 187);
    flag "sao_tome_and_principe" "countryST" (1 << 188);
    flag "saudi_arabia" "countrySA" (1 << 189);
    flag "senegal" "countrySN" (1 << 190);
    flag "serbia_and_montenegro" "countryCS" (1 << 191);
    flag "seychelles" "countrySC" (1 << 192);
    flag "sierra_leone" "countrySL" (1 << 193);
    flag "singapore" "countrySG" (1 << 194);
    flag "slovakia" "countrySK" (1 << 195);
    flag "slovenia" "countrySI" (1 << 196);
    flag "solomon_islands" "countrySB" (1 << 197);
    flag "somalia" "countrySO" (1 << 198);
    flag "south_africa" "countryZA" (1 << 199);
    flag "south_georgia_and_the_south_sandwich_islands" "countryGS" (1 << 200);
    flag "spain" "countryES" (1 << 201);
    flag "sri_lanka" "countryLK" (1 << 202);
    flag "sudan" "countrySD" (1 << 203);
    flag "suriname" "countrySR" (1 << 204);
    flag "svalbard_and_jan_mayen" "countrySJ" (1 << 205);
    flag "swaziland" "countrySZ" (1 << 206);
    flag "sweden" "countrySE" (1 << 207);
    flag "switzerland" "countryCH" (1 << 208);
    flag "syrian_arab_republic" "countrySY" (1 << 209);
    flag "_province_of_china_taiwan" "countryTW" (1 << 210);
    flag "tajikistan" "countryTJ" (1 << 211);
    flag "_united_republic_of_tanzania" "countryTZ" (1 << 212);
    flag "thailand" "countryTH" (1 << 213);
    flag "togo" "countryTG" (1 << 214);
    flag "tokelau" "countryTK" (1 << 215);
    flag "tonga" "countryTO" (1 << 216);
    flag "trinidad_and_tobago" "countryTT" (1 << 217);
    flag "tunisia" "countryTN" (1 << 218);
    flag "turkey" "countryTR" (1 << 219);
    flag "turkmenistan" "countryTM" (1 << 220);
    flag "turks_and_caicos_islands" "countryTC" (1 << 221);
    flag "tuvalu" "countryTV" (1 << 222);
    flag "uganda" "countryUG" (1 << 223);
    flag "ukraine" "countryUA" (1 << 224);
    flag "united_arab_emirates" "countryAE" (1 << 225);
    flag "united_kingdom" "countryUK" (1 << 226);
    flag "united_states" "countryUS" (1 << 227);
    flag "united_states_minor_outlying_islands" "countryUM" (1 << 228);
    flag "uruguay" "countryUY" (1 << 229);
    flag "uzbekistan" "countryUZ" (1 << 230);
    flag "vanuatu" "countryVU" (1 << 231);
    flag "venezuela" "countryVE" (1 << 232);
    flag "vietnam" "countryVN" (1 << 233);
    flag "_british_virgin_islands" "countryVG" (1 << 234);
    flag "_us_virgin_islands" "countryVI" (1 << 235);
    flag "wallis_and_futuna" "countryWF" (1 << 236);
    flag "western_sahara" "countryEH" (1 << 237);
    flag "yemen" "countryYE" (1 << 238);
    flag "yugoslavia" "countryYU" (1 << 239);
    flag "zambia" "countryZM" (1 << 240);
    flag "zimbabwe" "countryZW" (1 << 241)
  ]%list.

Definition Language : flags_class :=
  {| cls_body := Language_body;
     cls_properties := BaseFlags_properties;
     cls_other := (BaseFlags_attributes ++ object_attributes)%list |}.

Definition CountryCode : flags_class :=
  {| cls_body := CountryCode_body;
     cls_properties := BaseFlags_properties;
     cls_other := (BaseFlags_attributes ++ object_attributes)%list |}.

(** ** Well-formed tables

    Every name is bound once in the class body, and the i-th declared
    member returns [1 << i]. *)

Fixpoint distinct (l : list string) : bool :=
  match l with
  | [] => true
  | x :: rest => negb (existsb (String.eqb x) rest) && distinct rest
  end.

Fixpoint bits_from (i : Z) (l : list Z) : bool :=
  match l with
  | [] => true
  | f :: rest => Z.eqb f (1 << i) && bits_from (i + 1) rest
  end.

Definition wf_class (cls : flags_class) : bool :=
  distinct (map fp_name (cls_body cls)) &&
  bits_from 0 (map fp_flag (cls_body cls)).

(** The invariant of an instance: [value] fits in as many bits as the
    class has flags. *)

Definition in_range (cls : flags_class) (self : instance) : Prop :=
  0 <= value self < 2 ^ len (flag_values cls).

Definition set_count (cls : flags_class) (self : instance) : nat :=
  List.length (filter (fun kv => snd kv) (__iter__ cls self)).

(** The exception of an assignment to a name that is neither a flag nor
    [value]: raised by the guard of [__setattr__] when the instance has no
    such attribute, by the built-in assignment otherwise. *)


(** The keyword arguments that map each name of [S] to [True]. *)

Definition named (S : list string) : list (string * bool) :=
  map (fun name => (name, true)) S.

(** Instances built by the public factories and changed by assignments
    to registered flags, the keywords and the assigned values being
    bools. *)

Inductive reachable (cls : flags_class) : instance -> Prop :=
| reach_none : reachable cls (none cls)
| reach_all a : all cls = Ok a -> reachable cls a
| reach_from_flags (flags : list (string * bool)) a :
    from_flags cls flags = Ok a -> reachable cls a
| reach_set self name (b : bool) self' :
    reachable cls self -> In name (flag_values cls) ->
    __setattr__ cls self name b = Ok self' -> reachable cls self'.

(** The number of ones in the binary writing of [v], and the number of
    positions below [n] whose bit is set in [v]. *)

Fixpoint popcount (p : positive) : nat :=
  match p with
  | xH => 1
  | xO q => popcount q
  | xI q => S (popcount q)
  end.

Definition bit_count (v : Z) : nat :=
  match v with
  | Z0 => 0
  | Zpos p => popcount p
  | Zneg p => popcount p
  end.

Definition set_bits (v : Z) (n : nat) : nat :=
  List.length (filter (fun k => Z.testbit v (Z.of_nat k)) (seq 0 n)).

(** [comp] has exactly the flags set that [self] has not. *)

Definition is_complement (cls : flags_class) (self comp : instance) : bool :=
  forallb (fun name => Bool.eqb (get cls comp name) (negb (get cls self name)))
          (flag_values cls).

Definition in_rangeb (cls : flags_class) (self : instance) : bool :=
  Z.leb 0 (value self) && Z.ltb (value self) (2 ^ len (flag_values cls)).

(** Conditions on the wire tokens: none is empty; and, for decoding, none
    contains the separator or starts with a minus sign, and no two are
    equal. *)

Definition docs_nonempty (cls : flags_class) : bool :=
  forallb (fun p => negb (String.eqb (fp_doc p) EmptyString)) (cls_body cls).

Definition plain_token (s : string) : bool :=
  match s with
  | EmptyString => false
  | String c _ => negb (Ascii.eqb c "-") && Nat.eqb (count s "|") 0
  end.

Definition wf_tokens (cls : flags_class) : bool :=
  forallb (fun p => plain_token (fp_doc p)) (cls_body cls) &&
  distinct (map fp_doc (cls_body cls)).

(** ** Decoding a wire string

    Modelled from the spec: the repository has no decoder.  The spec's
    round trip splits the wire string on the separator, after stripping
    the negation wrapper if present, and maps each token back to its flag
    name through the descriptor table. *)

Fixpoint strip_closing (s : string) : option string :=
  match s with
  | EmptyString => None
  | String c rest =>
      match rest with
      | EmptyString => if Ascii.eqb c ")" then Some EmptyString else None
      | _ => option_map (String c) (strip_closing rest)
      end
  end.

Definition strip_wrapper (s : string) : bool * string :=
  match s with
  | String "-" (String "(" rest) =>
      match strip_closing rest with
      | Some body => (true, body)
      | None => (false, s)
      end
  | _ => (false, s)
  end.

Fixpoint split (s : string) (sep : ascii) : list string :=
  match s with
  | EmptyString => [EmptyString]
  | String c rest =>
      if Ascii.eqb c sep then EmptyString :: split rest sep
      else match split rest sep with
           | tok :: toks => String c tok :: toks
           | [] => [String c EmptyString]
           end
  end.

Definition name_of_token (cls : flags_class) (tok : string) : option string :=
  option_map fp_name
    (find (fun p => String.eqb (fp_doc p) tok) (getmembers cls)).

Fixpoint names_of_tokens (cls : flags_class) (toks : list string)
  : option (list string) :=
  match toks with
  | [] => Some []
  | tok :: rest =>
      match name_of_token cls tok, names_of_tokens cls rest with
      | Some name, Some names => Some (name :: names)
      | _, _ => None
      end
  end.

Definition decode (cls : flags_class) (wire : string)
  : option (bool * list string) :=
  let (negated, body) := strip_wrapper wire in
  option_map (fun names => (negated, names))
             (names_of_tokens cls (split body "|")).

(** The instance a decoded list denotes: [from_flags] with the listed
    flags set, or the full instance with the listed flags cleared. *)

Fixpoint assign_all (cls : flags_class) (self : instance)
  (names : list string) (v : bool) : result instance :=
  match names with
  | [] => Ok self
  | name :: rest =>
      self' <- __setattr__ cls self name v ;; assign_all cls self' rest v
  end.

Definition rebuild (cls : flags_class) (d : bool * list string)
  : result instance :=
  let (negated, names) := d in
  if negated then a <- all cls ;; assign_all cls a names false
  else from_flags cls (named names).

(** The names the iteration reports as set, and as unset. *)

Definition set_names (cls : flags_class) (self : instance) : list string :=
  map fst (filter (fun kv => snd kv) (__iter__ cls self)).

Definition unset_names (cls : flags_class) (self : instance) : list string :=
  map fst (filter (fun kv => negb (snd kv)) (__iter__ cls self)).

(** ** Values decoded from JSON

    [cse/result.py] and the end of [Search.search] work on what
    [json.loads] returns: [None], bools, numbers, strings, lists and dicts
    with string keys.  A dict is an association list that holds each key
    once.  Integers stand for the numbers: no operation below tells an
    integer from a float, both are true exactly when not zero.  The
    operations are the ones the two files apply, with the exception each
    raises on a value of the wrong type. *)

#[warnings="-register-all"]
Inductive json : Type :=
| JNull
| JBool (b : bool)
| JInt (n : Z)
| JStr (s : string)
| JList (items : list json)
| JObj (members : list (string * json)).

(** [NotSubscriptable] and [NotIterable] are Python's [TypeError],
    [NoAttribute] is its [AttributeError]. *)

Inductive pyexn : Type :=
| KeyError (key : json)
| IndexError
| NotSubscriptable
| NotIterable
| NoAttribute (attr : string)
| QuotaExceededError
| SearchError (data : json).

Inductive outcome (A : Type) : Type :=
| Return (a : A)
| Throw (e : pyexn).

Arguments Return {A} a.
Arguments Throw {A} e.

Definition obind {A B : Type} (r : outcome A) (k : A -> outcome B) : outcome B :=
  match r with
  | Return a => k a
  | Throw e => Throw e
  end.

Notation "x <~ r ;; k" := (obind r (fun x => k))
  (at level 61, r at next level, right associativity).

Definition truthy (v : json) : bool :=
  match v with
  | JNull => false
  | JBool b => b
  | JInt n => negb (Z.eqb n 0)
  | JStr s => negb (String.eqb s EmptyString)
  | JList items => match items with [] => false | _ :: _ => true end
  | JObj members => match members with [] => false | _ :: _ => true end
  end.

Fixpoint assoc (key : string) (members : list (string * json)) : option json :=
  match members with
  | [] => None
  | (k, v) :: rest => if String.eqb k key then Some v else assoc key rest
  end.

(** [v[key]] for a string key; a list or a string wants an integer index. *)

Definition getitem (v : json) (key : string) : outcome json :=
  match v with
  | JObj members =>
      match assoc key members with
      | Some x => Return x
      | None => Throw (KeyError (JStr key))
      end
  | _ => Throw NotSubscriptable
  end.

(** [v[0]]. *)

Definition getitem0 (v : json) : outcome json :=
  match v with
  | JList (x :: _) => Return x
  | JList [] => Throw IndexError
  | JStr (String c _) => Return (JStr (String c EmptyString))
  | JStr EmptyString => Throw IndexError
  | JObj _ => Throw (KeyError (JInt 0))
  | _ => Throw NotSubscriptable
  end.

(** [v.get(key)], [v.split(sep)] and [v.status]: only a dict has [get],
    only a string has [split], and none of the values has [status]. *)

Definition get_method (v : json) (key : string) : outcome json :=
  match v with
  | JObj members =>
      Return (match assoc key members with Some x => x | None => JNull end)
  | _ => Throw (NoAttribute "get")
  end.

Definition split_method (v : json) (sep : ascii) : outcome (list string) :=
  match v with
  | JStr s => Return (split s sep)
  | _ => Throw (NoAttribute "split")
  end.

Definition status_attribute (v : json) : outcome json :=
  Throw (NoAttribute "status").

(** [for d in v]: the items of a list, the keys of a dict, the characters
    of a string. *)

Fixpoint characters (s : string) : list json :=
  match s with
  | EmptyString => []
  | String c rest => JStr (String c EmptyString) :: characters rest
  end.

Definition iterate (v : json) : outcome (list json) :=
  match v with
  | JList items => Return items
  | JObj members => Return (map (fun kv => JStr (fst kv)) members)
  | JStr s => Return (characters s)
  | _ => Throw NotIterable
  end.

Definition newline : ascii := "010"%char.

(** The string without the occurrences of one character. *)

Fixpoint remove_char (c : ascii) (s : string) : string :=
  match s with
  | EmptyString => EmptyString
  | String d rest =>
      if Ascii.eqb d c then remove_char c rest
      else String d (remove_char c rest)
  end.

(** ** [cse/result.py] *)

Module SearchResult.

Record t : Type := {
  title : json;
  snippet : json;
  link : json;
  image : json
}.

Definition __init__ (data : json) : outcome t :=
  title <~ getitem data "title" ;;
  snip <~ get_method data "snippet" ;;
  snippet <~ (if truthy snip
              then parts <~ split_method snip newline ;;
                   Return (JStr (join EmptyString parts))
              else Return snip) ;;
  link <~ getitem data "link" ;;
  pagemap <~ getitem data "pagemap" ;;
  image <~ get_method pagemap "cse_image" ;;
  src <~ (if truthy image
          then first <~ getitem0 image ;; getitem first "src"
          else Return image) ;;
  Return {| title := title; snippet := snippet; link := link; image := src |}.

End SearchResult.

(** ** [cse/engine.py]

    [Search.search] up to the request: the two range checks and the
    parameter dict, in insertion order; and from the decoded response on.
    The request itself is not modelled. *)

Module Search.

Record t : Type := {
  api_key : string;
  engine_id : string
}.

Inductive param : Type :=
| PStr (s : string)
| PInt (n : Z).

Definition search_params (self : t) (query : string)
  (max_results start_index : Z) (language : option instance)
  (safe_search : bool) : result (list (string * param)) :=
  if Z.gtb 1 max_results && Z.gtb max_results 10 then Raise ValueError
  else if Z.gtb 0 start_index && Z.gtb start_index 100 then Raise ValueError
  else
    let params :=
      [ ("q", PStr query);
        ("cx", PStr (engine_id self));
        ("key", PStr (api_key self));
        ("num", PInt max_results);
        ("start", PInt (start_index + 1));
        ("safe", PStr (if safe_search then "active" else "off")) ]%list in
    match language with
    | Some flags =>
        match to_google_flags Language flags with
        | Some wire => Ok (params ++ [("lr", PStr wire)])%list
        | None => Ok params
        end
    | None => Ok params
    end.

Fixpoint results (ds : list json) : outcome (list SearchResult.t) :=
  match ds with
  | [] => Return []
  | d :: rest =>
      r <~ SearchResult.__init__ d ;;
      rs <~ results rest ;;
      Return (r :: rs)
  end.

(** The message of [SearchError] is not built: [search_response] never
    gets to raise it ([error_is_attribute_error]). *)

Definition search_response (response : json)
  : outcome (list SearchResult.t) :=
  error <~ get_method response "error" ;;
  if truthy error then
    status <~ status_attribute error ;;
    match status with
    | JStr "RESOURCE_EXHAUSTED" => Throw QuotaExceededError
    | _ => error' <~ getitem response "error" ;; Throw (SearchError error')
    end
  else
    items <~ getitem response "items" ;;
    ds <~ iterate items ;;
    results ds.

End Search.

(** The two exceptions of [cse/errors.py]. *)

Definition api_error (e : pyexn) : bool :=
  match e with
  | QuotaExceededError => true
  | SearchError _ => true
  | _ => false
  end.

Fixpoint param_lookup (key : string) (params : list (string * Search.param))
  : option Search.param :=
  match params with
  | [] => None
  | (k, v) :: rest => if String.eqb k key then Some v else param_lookup key rest
  end.

(** * Proofs *)

(** ** Bits of a flag *)

Lemma testbit_flag (i j : Z) : 0 <= i -> Z.testbit (1 << i) j = Z.eqb i j.
Proof.
  intros Hi. rewrite Z.shiftl_1_l. apply Z.pow2_bits_eqb. exact Hi.
Qed.

Lemma land_flag (v i : Z) :
  0 <= i -> Z.land v (1 << i) = if Z.testbit v i then 1 << i else 0.
Proof.
  intros Hi. apply Z.bits_inj'. intros j Hj.
  rewrite Z.land_spec, testbit_flag by exact Hi.
  destruct (Z.eqb_spec i j) as [->|Hne].
  - destruct (Z.testbit v j) eqn:E; simpl.
    + rewrite testbit_flag by exact Hj. symmetry. apply Z.eqb_refl.
    + now rewrite Z.bits_0.
  - rewrite andb_false_r. destruct (Z.testbit v i).
    + rewrite testbit_flag by exact Hi. symmetry. now apply Z.eqb_neq.
    + now rewrite Z.bits_0.
Qed.

Lemma flag_pos (i : Z) : 0 <= i -> 0 < 1 << i.
Proof.
  intros Hi. rewrite Z.shiftl_1_l. apply Z.pow_pos_nonneg; lia.
Qed.

Lemma has_flag_testbit (self : instance) (i : Z) :
  0 <= i -> _has_flag self (1 << i) = Z.testbit (value self) i.
Proof.
  intros Hi. unfold _has_flag. rewrite land_flag by exact Hi.
  destruct (Z.testbit (value self) i).
  - apply Z.eqb_refl.
  - apply Z.eqb_neq. pose proof (flag_pos i Hi). lia.
Qed.

Lemma set_flag_testbit (self : instance) (i j : Z) (b : bool) :
  0 <= i -> 0 <= j ->
  Z.testbit (value (_set_flag self (1 << i) b)) j =
  if Z.eqb i j then b else Z.testbit (value self) j.
Proof.
  intros Hi Hj. unfold _set_flag. destruct b; simpl.
  - rewrite Z.lor_spec, testbit_flag by exact Hi.
    destruct (Z.eqb i j); [apply orb_true_r | apply orb_false_r].
  - rewrite Z.land_spec, Z.lnot_spec, testbit_flag by assumption.
    destruct (Z.eqb i j); simpl; [apply andb_false_r | apply andb_true_r].
Qed.

(** ** Range of a value, bit by bit *)

Lemma range_high_bits (v n : Z) :
  0 <= n -> 0 <= v < 2 ^ n -> forall j, n <= j -> Z.testbit v j = false.
Proof.
  intros Hn Hv j Hj.
  rewrite <- (Z.mod_small v (2 ^ n)) by exact Hv.
  apply Z.mod_pow2_bits_high. lia.
Qed.

Lemma high_bits_range (v n : Z) :
  0 <= n -> 0 <= v -> (forall j, n <= j -> Z.testbit v j = false) ->
  v < 2 ^ n.
Proof.
  intros Hn Hv Hbits.
  assert (E : v = v mod 2 ^ n).
  { apply Z.bits_inj'. intros j Hj.
    destruct (Z_lt_le_dec j n) as [Hlt|Hge].
    - now rewrite Z.mod_pow2_bits_low.
    - rewrite Z.mod_pow2_bits_high by lia. now apply Hbits. }
  rewrite E. apply Z.mod_pos_bound. apply Z.pow_pos_nonneg; lia.
Qed.

Lemma set_flag_range (self : instance) (i n : Z) (b : bool) :
  0 <= i < n -> 0 <= value self < 2 ^ n ->
  0 <= value (_set_flag self (1 << i) b) < 2 ^ n.
Proof.
  intros Hi Hv.
  assert (Hnn : 0 <= value (_set_flag self (1 << i) b)).
  { unfold _set_flag. pose proof (flag_pos i (proj1 Hi)).
    destruct b; simpl.
    - apply Z.lor_nonneg. lia.
    - apply Z.land_nonneg. left. lia. }
  split; [exact Hnn|].
  apply high_bits_range; [lia | exact Hnn |].
  intros j Hj. rewrite set_flag_testbit by lia.
  destruct (Z.eqb_spec i j); [lia|].
  apply (range_high_bits _ n); [lia | exact Hv | exact Hj].
Qed.

(** ** Well-formed tables *)

Lemma distinct_NoDup (l : list string) : distinct l = true -> NoDup l.
Proof.
  induction l as [|x rest IH]; simpl; intros H.
  - constructor.
  - apply andb_prop in H. destruct H as [Hx Hrest].
    constructor; [|now apply IH].
    intros Hin. apply negb_true_iff in Hx.
    assert (existsb (String.eqb x) rest = true) as Habs.
    { apply existsb_exists. exists x. split; [exact Hin|apply String.eqb_refl]. }
    congruence.
Qed.

Lemma bits_from_nth (l : list Z) :
  forall i k f, bits_from i l = true -> nth_error l k = Some f ->
                f = 1 << (i + Z.of_nat k).
Proof.
  induction l as [|g rest IH]; intros i k f Hb Hk.
  - destruct k; discriminate.
  - simpl in Hb. apply andb_prop in Hb. destruct Hb as [Hg Hrest].
    destruct k as [|k]; simpl in Hk.
    + injection Hk as <-. apply Z.eqb_eq in Hg. now rewrite Z.add_0_r.
    + rewrite (IH _ _ _ Hrest Hk). f_equal. lia.
Qed.

Lemma flag_shift_inj (i j : Z) : 0 <= i -> 0 <= j -> 1 << i = 1 << j -> i = j.
Proof.
  intros Hi Hj E. rewrite !Z.shiftl_1_l in E.
  apply (Z.pow_inj_r 2); lia.
Qed.

Section WellFormed.

Variable cls : flags_class.
Hypothesis Hwf : wf_class cls = true.

Lemma wf_names : NoDup (map fp_name (cls_body cls)).
Proof.
  apply distinct_NoDup. unfold wf_class in Hwf.
  now apply andb_prop in Hwf.
Qed.

Lemma wf_bits : bits_from 0 (map fp_flag (cls_body cls)) = true.
Proof. unfold wf_class in Hwf. now apply andb_prop in Hwf. Qed.

Lemma nth_flag (k : nat) (p : flag_property) :
  nth_error (cls_body cls) k = Some p -> fp_flag p = 1 << Z.of_nat k.
Proof.
  intros Hk.
  apply (bits_from_nth (map fp_flag (cls_body cls)) 0 k); [exact wf_bits|].
  now rewrite nth_error_map, Hk.
Qed.

Lemma flag_shape (p : flag_property) :
  In p (cls_body cls) ->
  exists k, (k < List.length (cls_body cls))%nat /\ fp_flag p = 1 << Z.of_nat k.
Proof.
  intros Hin. apply In_nth_error in Hin. destruct Hin as [k Hk].
  exists k. split.
  - apply nth_error_Some. congruence.
  - now apply nth_flag.
Qed.

Lemma flag_inj (p q : flag_property) :
  In p (cls_body cls) -> In q (cls_body cls) ->
  fp_flag p = fp_flag q -> p = q.
Proof.
  intros Hp Hq E.
  apply In_nth_error in Hp. destruct Hp as [k Hk].
  apply In_nth_error in Hq. destruct Hq as [k' Hk'].
  rewrite (nth_flag _ _ Hk), (nth_flag _ _ Hk') in E.
  apply flag_shift_inj in E; try lia.
  apply Nat2Z.inj in E. subst k'. congruence.
Qed.

End WellFormed.

(** ** Registration and lookup *)

Lemma getmembers_perm (cls : flags_class) :
  Permutation (cls_body cls) (getmembers cls).
Proof. apply NameSort.Permuted_sort. Qed.

Lemma flag_values_length (cls : flags_class) :
  List.length (flag_values cls) = List.length (cls_body cls).
Proof.
  unfold flag_values, __init_subclass__. rewrite length_map.
  symmetry. apply Permutation_length, getmembers_perm.
Qed.

Lemma in_flag_values (cls : flags_class) (name : string) :
  In name (flag_values cls) <->
  exists p, In p (cls_body cls) /\ fp_name p = name.
Proof.
  unfold flag_values, __init_subclass__. rewrite in_map_iff.
  split; intros [p [H1 H2]].
  - exists p. split; [|exact H1].
    apply (Permutation_in _ (Permutation_sym (getmembers_perm cls))), H2.
  - exists p. split; [exact H2|].
    apply (Permutation_in _ (getmembers_perm cls)), H1.
Qed.

Lemma class_getattr_Some (cls : flags_class) (name : string) (p : flag_property) :
  class_getattr cls name = Some p -> In p (cls_body cls) /\ fp_name p = name.
Proof.
  unfold class_getattr. intros H. apply find_some in H.
  destruct H as [Hin Heq]. split; [exact Hin | now apply String.eqb_eq].
Qed.

Lemma class_getattr_flag_values (cls : flags_class) (name : string) :
  In name (flag_values cls) -> exists p, class_getattr cls name = Some p.
Proof.
  intros Hin. apply in_flag_values in Hin. destruct Hin as [p [Hp Hn]].
  destruct (class_getattr cls name) as [q|] eqn:E; [now exists q|].
  unfold class_getattr in E.
  pose proof (find_none _ _ E p Hp) as Hf. simpl in Hf.
  apply String.eqb_neq in Hf. contradiction.
Qed.

Lemma flag_of_name (cls : flags_class) (name : string) :
  wf_class cls = true -> In name (flag_values cls) ->
  exists p k, class_getattr cls name = Some p /\
              (k < List.length (flag_values cls))%nat /\
              fp_flag p = 1 << Z.of_nat k.
Proof.
  intros Hwf Hin. destruct (class_getattr_flag_values _ _ Hin) as [p Hp].
  destruct (class_getattr_Some _ _ _ Hp) as [Hbody _].
  destruct (flag_shape cls Hwf p Hbody) as [k [Hk Hf]].
  exists p, k. rewrite flag_values_length. auto.
Qed.

Lemma names_flags_differ (cls : flags_class) (n m : string) (p q : flag_property) :
  wf_class cls = true ->
  class_getattr cls n = Some p -> class_getattr cls m = Some q ->
  n <> m -> fp_flag p <> fp_flag q.
Proof.
  intros Hwf Hp Hq Hne E.
  destruct (class_getattr_Some _ _ _ Hp) as [Hpin Hpn].
  destruct (class_getattr_Some _ _ _ Hq) as [Hqin Hqn].
  apply (flag_inj cls Hwf p q Hpin Hqin) in E. subst q. congruence.
Qed.

Lemma find_attribute_flag (cls : flags_class) (name : string) (p : flag_property) :
  find_attribute cls name = Some (FlagAttr p) <-> class_getattr cls name = Some p.
Proof.
  unfold find_attribute. destruct (class_getattr cls name) as [q|].
  - split; intros H; congruence.
  - split; [|discriminate].
    destruct (String.eqb name "value"); [discriminate|].
    destruct (String.eqb name "__class__"); [discriminate|].
    destruct (existsb _ (cls_properties cls)); [discriminate|].
    destruct (existsb _ _); discriminate.
Qed.

Lemma setattr_flag {A : Type} `{PyInt A} (cls : flags_class) (self : instance)
  (name : string) (p : flag_property) (b : A) :
  class_getattr cls name = Some p ->
  __setattr__ cls self name b = Ok (__set__ p self b).
Proof.
  intros Hp. apply find_attribute_flag in Hp.
  unfold __setattr__, hasattr, object_setattr. now rewrite Hp.
Qed.

Lemma setattr_Ok (cls : flags_class) (self self' : instance) (name : string)
  (b : bool) :
  __setattr__ cls self name b = Ok self' ->
  (exists p, class_getattr cls name = Some p /\ self' = __set__ p self b) \/
  (name = "value" /\ self' = {| value := Z.b2z b |}).
Proof.
  unfold __setattr__, hasattr, object_setattr.
  destruct (find_attribute cls name) as [[p| | | |]|] eqn:E; simpl;
    try discriminate.
  - intros H. injection H as <-. left. exists p.
    split; [now apply find_attribute_flag | reflexivity].
  - intros H. injection H as <-. right. split; [|reflexivity].
    unfold find_attribute in E. destruct (class_getattr cls name); [discriminate|].
    destruct (String.eqb_spec name "value") as [->|]; [reflexivity|].
    destruct (String.eqb name "__class__"); [discriminate|].
    destruct (existsb _ (cls_properties cls)); [discriminate|].
    destruct (existsb _ _); discriminate.
  - destruct (String.eqb name "value"); discriminate.
Qed.

(** ** Reading and writing one flag *)

Lemma get_testbit (cls : flags_class) (self : instance) (name : string)
  (p : flag_property) (k : nat) :
  class_getattr cls name = Some p -> fp_flag p = 1 << Z.of_nat k ->
  get cls self name = Z.testbit (value self) (Z.of_nat k).
Proof.
  intros Hp Hf. unfold get, __get__. rewrite Hp, Hf.
  apply has_flag_testbit. lia.
Qed.

Lemma getattr_get (cls : flags_class) (self : instance) (name : string) :
  In name (flag_values cls) -> getattr cls self name = Ok (get cls self name).
Proof.
  intros Hin. destruct (class_getattr_flag_values _ _ Hin) as [p Hp].
  unfold getattr, get. now rewrite Hp.
Qed.

Lemma get_set_same (cls : flags_class) (self : instance) (n : string)
  (p : flag_property) (b : bool) :
  wf_class cls = true -> class_getattr cls n = Some p ->
  get cls (__set__ p self b) n = b.
Proof.
  intros Hwf Hp.
  destruct (class_getattr_Some _ _ _ Hp) as [Hin _].
  destruct (flag_shape cls Hwf p Hin) as [k [_ Hf]].
  rewrite (get_testbit _ _ _ _ _ Hp Hf). unfold __set__. rewrite Hf.
  rewrite set_flag_testbit by lia. now rewrite Z.eqb_refl.
Qed.

Lemma get_set_other (cls : flags_class) (self : instance) (n m : string)
  (p : flag_property) (b : bool) :
  wf_class cls = true -> class_getattr cls n = Some p ->
  In m (flag_values cls) -> m <> n ->
  get cls (__set__ p self b) m = get cls self m.
Proof.
  intros Hwf Hp Hm Hne.
  destruct (class_getattr_Some _ _ _ Hp) as [Hin _].
  destruct (flag_shape cls Hwf p Hin) as [k [_ Hf]].
  destruct (flag_of_name _ _ Hwf Hm) as [q [j [Hq [_ Hg]]]].
  rewrite !(get_testbit _ _ _ _ _ Hq Hg). unfold __set__. rewrite Hf.
  rewrite set_flag_testbit by lia.
  destruct (Z.eqb_spec (Z.of_nat k) (Z.of_nat j)) as [E|]; [|reflexivity].
  exfalso. apply (names_flags_differ cls n m p q Hwf Hp Hq); [congruence|].
  rewrite Hf, Hg. now rewrite E.
Qed.

(** C10. After a registered flag [n] is assigned [b], reading [n] gives
    [b] and every other registered flag reads as before. *)
Theorem setattr_frame (cls : flags_class) (self : instance) (n : string) (b : bool) :
  wf_class cls = true -> In n (flag_values cls) ->
  exists self',
    __setattr__ cls self n b = Ok self' /\
    getattr cls self' n = Ok b /\
    forall m, In m (flag_values cls) -> m <> n ->
              getattr cls self' m = getattr cls self m.
Proof.
  intros Hwf Hn. destruct (class_getattr_flag_values _ _ Hn) as [p Hp].
  exists (__set__ p self b). split; [now apply setattr_flag|]. split.
  - rewrite getattr_get by exact Hn. f_equal. now apply get_set_same.
  - intros m Hm Hne. rewrite !getattr_get by exact Hm. f_equal.
    now apply (get_set_other cls self n m).
Qed.

(** ** Factories *)

Lemma int2_digits_ones (n : nat) (acc : Z) :
  int2_digits acc (str_repeat "1" n) = Some ((acc + 1) * 2 ^ Z.of_nat n - 1).
Proof.
  revert acc. induction n as [|n IH]; intros acc.
  - cbn [str_repeat int2_digits]. f_equal.
    change (Z.of_nat 0) with 0. rewrite Z.pow_0_r. lia.
  - cbn [str_repeat append int2_digits]. simpl Ascii.eqb. cbv iota.
    rewrite IH. f_equal. rewrite Nat2Z.inj_succ, Z.pow_succ_r by lia. lia.
Qed.

Lemma all_value (cls : flags_class) :
  cls_body cls <> [] ->
  all cls = Ok (_from_value (2 ^ len (flag_values cls) - 1)).
Proof.
  intros Hne. unfold all, len.
  destruct (List.length (flag_values cls)) as [|n] eqn:E.
  - rewrite flag_values_length in E. apply length_zero_iff_nil in E.
    contradiction.
  - change (int2 (str_repeat "1" (S n)))
      with (int2_digits 0 (str_repeat "1" (S n))).
    rewrite int2_digits_ones. do 2 f_equal. lia.
Qed.

Lemma get_none (cls : flags_class) (name : string) :
  wf_class cls = true -> In name (flag_values cls) ->
  get cls (_from_value 0) name = false.
Proof.
  intros Hwf Hin. destruct (flag_of_name _ _ Hwf Hin) as [p [k [Hp [_ Hf]]]].
  rewrite (get_testbit _ _ _ _ _ Hp Hf). apply Z.bits_0.
Qed.

Lemma hasattr_flag (cls : flags_class) (self : instance) (name : string) :
  In name (flag_values cls) -> hasattr cls self name = true.
Proof.
  intros Hin. destruct (class_getattr_flag_values _ _ Hin) as [p Hp].
  apply find_attribute_flag in Hp. unfold hasattr. now rewrite Hp.
Qed.

Lemma from_flags_loop_named (cls : flags_class) (S : list string) :
  wf_class cls = true -> incl S (flag_values cls) ->
  forall self, exists self',
    from_flags_loop cls self (named S) = Ok self' /\
    forall m, In m (flag_values cls) ->
              (get cls self' m = true <-> get cls self m = true \/ In m S).
Proof.
  intros Hwf. induction S as [|n S IH]; intros Hincl self.
  - exists self. split; [reflexivity|]. intros m _. simpl. tauto.
  - assert (Hn : In n (flag_values cls)) by (apply Hincl; now left).
    assert (HS : incl S (flag_values cls)).
    { intros x Hx. apply Hincl. now right. }
    destruct (class_getattr_flag_values _ _ Hn) as [p Hp].
    destruct (IH HS (__set__ p self true)) as [self' [Hloop Hget]].
    exists self'. split.
    + cbn [named map from_flags_loop]. rewrite (hasattr_flag _ _ _ Hn).
      cbn [negb]. rewrite (setattr_flag _ _ _ _ _ Hp). exact Hloop.
    + intros m Hm. rewrite (Hget m Hm).
      destruct (string_dec m n) as [->|Hne].
      * rewrite (get_set_same _ _ _ _ _ Hwf Hp). simpl. tauto.
      * rewrite (get_set_other cls self n m p true Hwf Hp Hm Hne).
        simpl. intuition congruence.
Qed.

(** C6. Built by [from_flags] from a subset [S] of the registered names,
    each mapped to true, an instance reads true at a registered name
    exactly when the name is in [S]. *)
Theorem from_flags_get (cls : flags_class) (S : list string) :
  wf_class cls = true -> incl S (flag_values cls) ->
  exists self,
    from_flags cls (named S) = Ok self /\
    forall name, In name (flag_values cls) ->
      exists b, getattr cls self name = Ok b /\ (b = true <-> In name S).
Proof.
  intros Hwf Hincl.
  destruct (from_flags_loop_named cls S Hwf Hincl (_from_value 0))
    as [self [Hloop Hget]].
  exists self. split; [exact Hloop|].
  intros name Hin. exists (get cls self name).
  split; [now apply getattr_get|].
  rewrite (Hget name Hin), (get_none cls name Hwf Hin).
  intuition discriminate.
Qed.

(** ** The range invariant *)

Lemma len_nonneg {A : Type} (l : list A) : 0 <= len l.
Proof. unfold len. lia. Qed.

Lemma none_in_range (cls : flags_class) : in_range cls (none cls).
Proof.
  unfold in_range, none. simpl. pose proof (len_nonneg (flag_values cls)).
  split; [lia | apply Z.pow_pos_nonneg; lia].
Qed.

Lemma setattr_in_range (cls : flags_class) (self self' : instance)
  (name : string) (b : bool) :
  wf_class cls = true -> cls_body cls <> [] -> in_range cls self ->
  __setattr__ cls self name b = Ok self' -> in_range cls self'.
Proof.
  intros Hwf Hne Hr Hset. unfold in_range in *.
  destruct (setattr_Ok _ _ _ _ _ Hset) as [[p [Hp ->]] | [_ ->]].
  - destruct (class_getattr_Some _ _ _ Hp) as [Hin _].
    destruct (flag_shape cls Hwf p Hin) as [k [Hk Hf]].
    unfold __set__. rewrite Hf. apply set_flag_range; [|exact Hr].
    unfold len. rewrite flag_values_length. lia.
  - simpl. assert (1 <= len (flag_values cls)) as Hlen.
    { unfold len. rewrite flag_values_length.
      destruct (cls_body cls); [contradiction | simpl; lia]. }
    assert (2 ^ 1 <= 2 ^ len (flag_values cls))
      by (apply Z.pow_le_mono_r; lia).
    destruct b; simpl; lia.
Qed.

Lemma from_flags_loop_in_range (cls : flags_class) (flags : list (string * bool)) :
  wf_class cls = true -> cls_body cls <> [] ->
  forall self self', in_range cls self ->
    from_flags_loop cls self flags = Ok self' -> in_range cls self'.
Proof.
  intros Hwf Hne. induction flags as [|[name v] rest IH]; intros self self' Hr H.
  - simpl in H. now injection H as <-.
  - simpl in H. destruct (negb (hasattr cls self name)); [discriminate|].
    destruct (__setattr__ cls self name v) as [s|e] eqn:E; [|discriminate].
    simpl in H. apply (IH s self'); [|exact H].
    now apply (setattr_in_range cls self s name v).
Qed.

Lemma all_in_range (cls : flags_class) (a : instance) :
  all cls = Ok a -> in_range cls a.
Proof.
  intros H. unfold all in H.
  destruct (List.length (flag_values cls)) as [|n] eqn:E; [discriminate|].
  change (int2 (str_repeat "1" (S n)))
    with (int2_digits 0 (str_repeat "1" (S n))) in H.
  rewrite int2_digits_ones in H. rewrite Z.add_0_l, Z.mul_1_l in H.
  assert (Hv : value a = 2 ^ Z.of_nat (S n) - 1).
  { injection H as <-. reflexivity. }
  unfold in_range, len. rewrite E, Hv.
  assert (0 < 2 ^ Z.of_nat (S n)) by (apply Z.pow_pos_nonneg; lia).
  lia.
Qed.

(** C8. Every instance obtained from [none], [all] or [from_flags] and any
    number of assignments to registered flags has a value below 2^N. *)
Theorem reachable_in_range (cls : flags_class) (self : instance) :
  wf_class cls = true -> cls_body cls <> [] ->
  reachable cls self ->
  0 <= value self < 2 ^ len (flag_values cls).
Proof.
  intros Hwf Hne Hreach. change (in_range cls self).
  induction Hreach as [|a Ha|flags a Ha|self name b self' _ IH _ Hset].
  - apply none_in_range.
  - now apply all_in_range.
  - apply (from_flags_loop_in_range cls flags Hwf Hne (_from_value 0) a).
    + apply none_in_range.
    + exact Ha.
  - now apply (setattr_in_range cls self self' name b).
Qed.

(** ** Omitted parameter *)

Lemma to_google_flags_None_iff (cls : flags_class) (self : instance) :
  to_google_flags cls self = None <->
  value self = 0 \/ value self = 2 ^ len (flag_values cls) - 1.
Proof.
  unfold to_google_flags, _all_flags_enabled. rewrite Z.shiftl_1_l.
  destruct (Z.eqb_spec (value self) 0) as [E0|N0]; simpl.
  - tauto.
  - destruct (Z.eqb_spec (value self) (2 ^ len (flag_values cls) - 1))
      as [E1|N1].
    + tauto.
    + destruct (int_gt _ _); split; intros H;
        try discriminate; destruct H; contradiction.
Qed.

(** C2. [to_google_flags] returns [None] exactly when the value is 0 or
    2^N - 1; so it does on [none()] and, for a class with at least one
    flag, on [all()]. *)
Theorem to_google_flags_omitted (cls : flags_class) :
  (forall self,
      to_google_flags cls self = None <->
      value self = 0 \/ value self = 2 ^ len (flag_values cls) - 1) /\
  to_google_flags cls (none cls) = None /\
  (cls_body cls <> [] ->
   exists a, all cls = Ok a /\
             value a = 2 ^ len (flag_values cls) - 1 /\
             to_google_flags cls a = None).
Proof.
  split; [apply to_google_flags_None_iff|]. split.
  - apply to_google_flags_None_iff. now left.
  - intros Hne. exists (_from_value (2 ^ len (flag_values cls) - 1)).
    split; [now apply all_value|]. split; [reflexivity|].
    apply to_google_flags_None_iff. now right.
Qed.

(** ** Counting the ones of [bin] *)

Lemma count_append (s t : string) (c : ascii) :
  count (s ++ t) c = (count s c + count t c)%nat.
Proof.
  induction s as [|d s IH]; simpl; [reflexivity|].
  destruct (Ascii.eqb d c); simpl; now rewrite IH.
Qed.

Lemma count_bin_digits (p : positive) : count (bin_digits p) "1" = popcount p.
Proof.
  induction p as [q IH|q IH|]; simpl; try reflexivity;
    rewrite count_append, IH; simpl; lia.
Qed.

Lemma count_bin (v : Z) : count (bin v) "1" = bit_count v.
Proof. destruct v as [|p|p]; simpl; try reflexivity; apply count_bin_digits. Qed.

Lemma bit_count_div2 (v : Z) :
  0 <= v ->
  bit_count v = ((if Z.odd v then 1 else 0) + bit_count (Z.div2 v))%nat.
Proof.
  intros Hv. destruct v as [|p|p]; [reflexivity | | lia].
  destruct p; reflexivity.
Qed.

Lemma set_bits_succ (v : Z) (n : nat) :
  set_bits v (S n) = ((if Z.odd v then 1 else 0) + set_bits (Z.div2 v) n)%nat.
Proof.
  unfold set_bits. rewrite <- cons_seq, <- seq_shift. cbn [filter].
  change (Z.of_nat 0) with 0. rewrite Z.bit0_odd.
  assert (E : List.length (filter (fun k => Z.testbit v (Z.of_nat k))
                                  (map S (seq 0 n))) =
              List.length (filter (fun k => Z.testbit (Z.div2 v) (Z.of_nat k))
                                  (seq 0 n))).
  { rewrite filter_map_swap, length_map. f_equal. apply filter_ext.
    intros k. rewrite Z.div2_div, Z.div2_bits by lia.
    now rewrite Nat2Z.inj_succ. }
  destruct (Z.odd v); cbn [List.length]; now rewrite E.
Qed.

Lemma set_bits_bit_count (n : nat) :
  forall v, 0 <= v < 2 ^ Z.of_nat n -> set_bits v n = bit_count v.
Proof.
  induction n as [|n IH]; intros v Hv.
  - change (2 ^ Z.of_nat 0) with 1 in Hv. assert (v = 0) as -> by lia.
    reflexivity.
  - rewrite set_bits_succ, bit_count_div2 by lia. f_equal. apply IH.
    rewrite Z.div2_div. rewrite Nat2Z.inj_succ, Z.pow_succ_r in Hv by lia.
    split.
    + apply Z.div_pos; lia.
    + apply Z.div_lt_upper_bound; lia.
Qed.

Lemma set_bits_zero (n : nat) : set_bits 0 n = O.
Proof.
  unfold set_bits. induction (seq 0 n) as [|k l IH]; [reflexivity|].
  cbn [filter]. now rewrite Z.bits_0.
Qed.

Lemma set_bits_ones (n : nat) : set_bits (2 ^ Z.of_nat n - 1) n = n.
Proof.
  unfold set_bits.
  replace (2 ^ Z.of_nat n - 1) with (Z.ones (Z.of_nat n))
    by (rewrite Z.ones_equiv; lia).
  transitivity (List.length (seq 0 n)); [|apply length_seq]. f_equal.
  apply forallb_filter_id. apply forallb_forall. intros k Hk.
  apply in_seq in Hk. apply Z.ones_spec_low. lia.
Qed.

(** ** Iteration over the registered flags *)

Lemma map_injective_in {A B : Type} (f : A -> B) (l : list A) :
  NoDup (map f l) -> forall x y, In x l -> In y l -> f x = f y -> x = y.
Proof.
  induction l as [|a l IH]; intros Hnd x y Hx Hy E; [contradiction|].
  simpl in Hnd. inversion Hnd as [|? ? Hnotin Hnd']; subst.
  destruct Hx as [->|Hx], Hy as [->|Hy]; auto.
  - exfalso. apply Hnotin. rewrite E. now apply in_map.
  - exfalso. apply Hnotin. rewrite <- E. now apply in_map.
Qed.

Lemma class_getattr_member (cls : flags_class) (p : flag_property) :
  wf_class cls = true -> In p (cls_body cls) ->
  class_getattr cls (fp_name p) = Some p.
Proof.
  intros Hwf Hin.
  assert (Hn : In (fp_name p) (flag_values cls)).
  { apply in_flag_values. now exists p. }
  destruct (class_getattr_flag_values _ _ Hn) as [q Hq].
  destruct (class_getattr_Some _ _ _ Hq) as [Hqin Hqn].
  rewrite Hq. f_equal.
  apply (map_injective_in fp_name (cls_body cls) (wf_names cls Hwf)); auto.
Qed.

Lemma in_getmembers (cls : flags_class) (p : flag_property) :
  In p (getmembers cls) <-> In p (cls_body cls).
Proof.
  split; intros H.
  - apply (Permutation_in _ (Permutation_sym (getmembers_perm cls))), H.
  - apply (Permutation_in _ (getmembers_perm cls)), H.
Qed.

Lemma iter_members (cls : flags_class) (self : instance) :
  wf_class cls = true ->
  __iter__ cls self =
  map (fun p => (fp_name p, __get__ p self)) (getmembers cls).
Proof.
  intros Hwf. unfold __iter__, __dict__, flag_values, __init_subclass__.
  rewrite map_map. apply map_ext_in. intros p Hp.
  apply in_getmembers in Hp. unfold get.
  now rewrite (class_getattr_member cls p Hwf Hp).
Qed.

Lemma set_docs_members (cls : flags_class) (self : instance) :
  wf_class cls = true ->
  set_docs cls self =
  map fp_doc (filter (fun p => __get__ p self) (getmembers cls)).
Proof.
  intros Hwf. unfold set_docs. rewrite (iter_members cls self Hwf).
  rewrite filter_map_swap, map_map. cbn [fst snd].
  apply map_ext_in. intros p Hp. apply filter_In in Hp. destruct Hp as [Hp _].
  apply in_getmembers in Hp. unfold doc.
  now rewrite (class_getattr_member cls p Hwf Hp).
Qed.

Lemma unset_docs_members (cls : flags_class) (self : instance) :
  wf_class cls = true ->
  unset_docs cls self =
  map fp_doc (filter (fun p => negb (__get__ p self)) (getmembers cls)).
Proof.
  intros Hwf. unfold unset_docs. rewrite (iter_members cls self Hwf).
  rewrite filter_map_swap, map_map. cbn [fst snd].
  apply map_ext_in. intros p Hp. apply filter_In in Hp. destruct Hp as [Hp _].
  apply in_getmembers in Hp. unfold doc.
  now rewrite (class_getattr_member cls p Hwf Hp).
Qed.

Lemma set_count_members (cls : flags_class) (self : instance) :
  wf_class cls = true ->
  set_count cls self =
  List.length (filter (fun p => __get__ p self) (getmembers cls)).
Proof.
  intros Hwf. unfold set_count. rewrite (iter_members cls self Hwf).
  now rewrite filter_map_swap, length_map.
Qed.

Lemma filter_length_perm {A : Type} (f : A -> bool) (l l' : list A) :
  Permutation l l' -> List.length (filter f l) = List.length (filter f l').
Proof.
  induction 1 as [|x l l' _ IH|x y l|l l' l'' _ IH1 _ IH2]; simpl.
  - reflexivity.
  - destruct (f x); simpl; now rewrite IH.
  - destruct (f x), (f y); reflexivity.
  - now rewrite IH1.
Qed.

Lemma filter_declared (self : instance) (l : list flag_property) :
  forall s, bits_from (Z.of_nat s) (map fp_flag l) = true ->
  List.length (filter (fun p => __get__ p self) l) =
  List.length (filter (fun k => Z.testbit (value self) (Z.of_nat k))
                      (seq s (List.length l))).
Proof.
  induction l as [|p l IH]; intros s Hb; [reflexivity|].
  simpl in Hb. apply andb_prop in Hb. destruct Hb as [Hp Hrest].
  apply Z.eqb_eq in Hp. cbn [List.length seq filter].
  unfold __get__ at 1. rewrite Hp, has_flag_testbit by lia.
  replace (Z.of_nat s + 1) with (Z.of_nat (S s)) in Hrest by lia.
  specialize (IH (S s) Hrest).
  destruct (Z.testbit (value self) (Z.of_nat s)); simpl; now rewrite IH.
Qed.

Lemma set_count_set_bits (cls : flags_class) (self : instance) :
  wf_class cls = true ->
  set_count cls self = set_bits (value self) (List.length (flag_values cls)).
Proof.
  intros Hwf. rewrite (set_count_members cls self Hwf).
  rewrite <- (filter_length_perm _ _ _ (getmembers_perm cls)).
  rewrite flag_values_length. apply (filter_declared self (cls_body cls) 0).
  exact (wf_bits cls Hwf).
Qed.

Lemma set_count_bit_count (cls : flags_class) (self : instance) :
  wf_class cls = true -> in_range cls self ->
  set_count cls self = bit_count (value self).
Proof.
  intros Hwf Hr. rewrite (set_count_set_bits cls self Hwf).
  apply set_bits_bit_count. exact Hr.
Qed.

(** ** Choice of the encoding *)

Lemma int_gt_half (k : nat) (n : Z) :
  int_gt k (true_div n 2) = Z.ltb n (2 * Z.of_nat k).
Proof.
  unfold int_gt, true_div, Qle_bool, Qdiv, Qmult, Qinv, inject_Z.
  cbn -[Z.mul Z.of_nat Z.leb Z.ltb]. rewrite Z.ltb_antisym. f_equal.
  destruct (Z.leb_spec (Z.of_nat k * 2) (n * 1 * 1)) as [H|H];
    symmetry; [apply Z.leb_le | apply Z.leb_gt]; lia.
Qed.

Lemma to_google_flags_list (cls : flags_class) (self : instance) :
  value self <> 0 -> value self <> 2 ^ len (flag_values cls) - 1 ->
  to_google_flags cls self =
  Some (if Z.ltb (len (flag_values cls)) (2 * Z.of_nat (bit_count (value self)))
        then "-(" ++ join "|" (unset_docs cls self) ++ ")"
        else join "|" (set_docs cls self)).
Proof.
  intros H0 H1. unfold to_google_flags, _all_flags_enabled.
  rewrite Z.shiftl_1_l.
  destruct (Z.eqb_spec (value self) 0) as [|_]; [contradiction|].
  destruct (Z.eqb_spec (value self) (2 ^ len (flag_values cls) - 1)) as [|_];
    [contradiction|].
  cbn [orb]. rewrite count_bin, int_gt_half.
  now destruct (Z.ltb _ _).
Qed.

Lemma partial_value (cls : flags_class) (self : instance) :
  wf_class cls = true ->
  (0 < set_count cls self < List.length (flag_values cls))%nat ->
  value self <> 0 /\ value self <> 2 ^ len (flag_values cls) - 1.
Proof.
  intros Hwf Hk. rewrite (set_count_set_bits cls self Hwf) in Hk.
  split; intros E; rewrite E in Hk.
  - rewrite set_bits_zero in Hk. lia.
  - unfold len in Hk. rewrite set_bits_ones in Hk. lia.
Qed.

Lemma encoding_choice_aux (cls : flags_class) (self : instance) (k : nat) :
  wf_class cls = true -> in_range cls self ->
  set_count cls self = k -> (0 < k < List.length (flag_values cls))%nat ->
  (len (flag_values cls) < 2 * Z.of_nat k ->
   to_google_flags cls self =
   Some ("-(" ++ join "|" (unset_docs cls self) ++ ")")) /\
  (2 * Z.of_nat k <= len (flag_values cls) ->
   to_google_flags cls self = Some (join "|" (set_docs cls self))).
Proof.
  intros Hwf Hr Hk Hbound. subst k.
  destruct (partial_value cls self Hwf Hbound) as [H0 H1].
  rewrite (to_google_flags_list cls self H0 H1).
  rewrite <- (set_count_bit_count cls self Hwf Hr).
  split; intros H.
  - apply Z.ltb_lt in H. now rewrite H.
  - apply Z.ltb_ge in H. now rewrite H.
Qed.

(** ** Complements *)

Lemma in_rangeb_true (cls : flags_class) (self : instance) :
  in_rangeb cls self = true -> in_range cls self.
Proof.
  unfold in_rangeb, in_range. intros H. apply andb_prop in H.
  destruct H as [H1 H2]. apply Z.leb_le in H1. apply Z.ltb_lt in H2. lia.
Qed.

Lemma filter_length_split {A : Type} (f : A -> bool) (l : list A) :
  (List.length (filter f l) + List.length (filter (fun x => negb (f x)) l))%nat
  = List.length l.
Proof.
  induction l as [|x l IH]; simpl; [reflexivity|].
  destruct (f x); simpl; lia.
Qed.

Lemma get_member (cls : flags_class) (self : instance) (p : flag_property) :
  wf_class cls = true -> In p (getmembers cls) ->
  get cls self (fp_name p) = __get__ p self.
Proof.
  intros Hwf Hp. apply in_getmembers in Hp. unfold get.
  now rewrite (class_getattr_member cls p Hwf Hp).
Qed.

Lemma complement_member (cls : flags_class) (self comp : instance)
  (p : flag_property) :
  wf_class cls = true -> is_complement cls self comp = true ->
  In p (getmembers cls) -> __get__ p comp = negb (__get__ p self).
Proof.
  intros Hwf Hc Hp. unfold is_complement in Hc.
  rewrite forallb_forall in Hc.
  assert (Hn : In (fp_name p) (flag_values cls)).
  { unfold flag_values, __init_subclass__. now apply in_map. }
  specialize (Hc _ Hn). apply Bool.eqb_prop in Hc.
  now rewrite !(get_member cls _ p Hwf Hp) in Hc.
Qed.

Lemma complement_unset_docs (cls : flags_class) (self comp : instance) :
  wf_class cls = true -> is_complement cls self comp = true ->
  unset_docs cls comp = set_docs cls self.
Proof.
  intros Hwf Hc.
  rewrite (unset_docs_members cls comp Hwf), (set_docs_members cls self Hwf).
  f_equal. apply filter_ext_in. intros p Hp.
  rewrite (complement_member cls self comp p Hwf Hc Hp).
  apply negb_involutive.
Qed.

Lemma complement_set_count (cls : flags_class) (self comp : instance) :
  wf_class cls = true -> is_complement cls self comp = true ->
  (set_count cls comp + set_count cls self)%nat = List.length (flag_values cls).
Proof.
  intros Hwf Hc. rewrite !set_count_members by exact Hwf.
  rewrite (filter_ext_in (fun p => __get__ p comp)
             (fun p => negb (__get__ p self))).
  - rewrite Nat.add_comm, filter_length_split.
    unfold flag_values, __init_subclass__. now rewrite length_map.
  - intros p Hp. now apply (complement_member cls self comp).
Qed.

Lemma set_docs_length (cls : flags_class) (self : instance) :
  List.length (set_docs cls self) = set_count cls self.
Proof. unfold set_docs, set_count. apply length_map. Qed.

(** C3, as the code has it.  With k flags set, 0 < k and 2k <= N, the
    encoding is the k tokens of the set flags joined by the separator;
    when 2k < N the complement, with N - k flags set, is encoded as the
    same k tokens inside the negation wrapper.  On [Language], all flags
    but [english] give the wrapper around [lang_en]. *)
Theorem list_encodings (cls : flags_class) (self : instance) (k : nat) :
  wf_class cls = true -> in_range cls self ->
  set_count cls self = k -> (0 < k)%nat ->
  2 * Z.of_nat k <= len (flag_values cls) ->
  (to_google_flags cls self = Some (join "|" (set_docs cls self)) /\
   List.length (set_docs cls self) = k) /\
  (forall comp,
      in_range cls comp -> is_complement cls self comp = true ->
      2 * Z.of_nat k < len (flag_values cls) ->
      set_count cls comp = (List.length (flag_values cls) - k)%nat /\
      unset_docs cls comp = set_docs cls self /\
      to_google_flags cls comp =
      Some ("-(" ++ join "|" (set_docs cls self) ++ ")")) /\
  (a <- all Language ;;
   b <- __setattr__ Language a "english" false ;;
   Ok (to_google_flags Language b)) = Ok (Some "-(lang_en)").
Proof.
  intros Hwf Hr Hk Hpos Hhalf. unfold len in Hhalf. split; [|split].
  - split; [|rewrite <- Hk; apply set_docs_length].
    assert (Hb : (0 < k < List.length (flag_values cls))%nat) by lia.
    destruct (encoding_choice_aux cls self k Hwf Hr Hk Hb) as [_ H].
    apply H. unfold len. lia.
  - intros comp Hrc Hc Hlt. unfold len in Hlt.
    pose proof (complement_set_count cls self comp Hwf Hc) as Hsum.
    assert (Hkc : set_count cls comp = (List.length (flag_values cls) - k)%nat)
      by lia.
    split; [exact Hkc|]. split; [now apply complement_unset_docs|].
    rewrite <- (complement_unset_docs cls self comp Hwf Hc).
    assert (Hb : (0 < List.length (flag_values cls) - k
                  < List.length (flag_values cls))%nat) by lia.
    destruct (encoding_choice_aux cls comp _ Hwf Hrc Hkc Hb) as [H _].
    apply H. unfold len. lia.
  - vm_compute. reflexivity.
Qed.

(** C3, counterexample.  [CountryCode] has 242 flags.  With the flags of
    bits 0 to 120 set, k = 121 satisfies 0 < k <= N/2, and the complement,
    with the other 121 flags set, is encoded as a positive list, not as
    the negated list of the k tokens. *)
Lemma complement_tie_counterexample :
  let self := _from_value (2 ^ 121 - 1) in
  let comp := _from_value (2 ^ 242 - 2 ^ 121) in
  wf_class CountryCode = true /\
  in_rangeb CountryCode self = true /\
  in_rangeb CountryCode comp = true /\
  is_complement CountryCode self comp = true /\
  set_count CountryCode self = 121%nat /\
  2 * 121 <= len (flag_values CountryCode) /\
  set_count CountryCode comp = (242 - 121)%nat /\
  to_google_flags CountryCode comp
  <> Some ("-(" ++ join "|" (set_docs CountryCode self) ++ ")") /\
  to_google_flags CountryCode comp = Some (join "|" (set_docs CountryCode comp)).
Proof.
  cbv zeta. repeat split; try (vm_compute; reflexivity).
  - vm_compute. discriminate.
  - vm_compute. discriminate.
Qed.

(** ** Order of iteration *)

Lemma LocallySorted_map {A B : Type} (f : A -> B) (R : B -> B -> Prop)
  (l : list A) :
  LocallySorted (fun x y => R (f x) (f y)) l -> LocallySorted R (map f l).
Proof.
  induction 1 as [|a|a b l _ IH Hab]; simpl; constructor; assumption.
Qed.

Lemma iter_names (cls : flags_class) (self : instance) :
  map fst (__iter__ cls self) = flag_values cls.
Proof.
  unfold __iter__, __dict__. rewrite map_map. cbn [fst]. apply map_id.
Qed.

Lemma set_docs_names (cls : flags_class) (self : instance) :
  set_docs cls self = map (doc cls) (filter (get cls self) (flag_values cls)).
Proof.
  unfold set_docs, __iter__, __dict__.
  rewrite filter_map_swap, map_map. reflexivity.
Qed.

Lemma unset_docs_names (cls : flags_class) (self : instance) :
  unset_docs cls self =
  map (doc cls) (filter (fun name => negb (get cls self name)) (flag_values cls)).
Proof.
  unfold unset_docs, __iter__, __dict__.
  rewrite filter_map_swap, map_map. reflexivity.
Qed.

(** C4, as the code has it.  Iteration yields one pair per registered
    flag in the order of [flag_values], which is the declared names sorted
    in ascending order; the tokens of a positive or negated list follow
    that order.  On [Language], [english] and [french] set give
    [lang_en|lang_fr]. *)
Theorem iteration_order (cls : flags_class) (self : instance) :
  map fst (__iter__ cls self) = flag_values cls /\
  Permutation (map fp_name (cls_body cls)) (flag_values cls) /\
  LocallySorted (fun a b => String.leb a b = true) (flag_values cls) /\
  set_docs cls self =
    map (doc cls) (filter (get cls self) (flag_values cls)) /\
  unset_docs cls self =
    map (doc cls)
        (filter (fun name => negb (get cls self name)) (flag_values cls)) /\
  (x <- from_flags Language [("english", true); ("french", true)]%list ;;
   Ok (to_google_flags Language x)) = Ok (Some "lang_en|lang_fr").
Proof.
  split; [apply iter_names|]. split.
  { unfold flag_values, __init_subclass__.
    apply Permutation_map, getmembers_perm. }
  split.
  { unfold flag_values, __init_subclass__, getmembers.
    apply LocallySorted_map. apply NameSort.LocallySorted_sort. }
  split; [apply set_docs_names|]. split; [apply unset_docs_names|].
  vm_compute. reflexivity.
Qed.

(** C4, counterexample.  On [Language] the iteration does not follow the
    declaration order: [german] is declared before [english] (bits 5 and
    7), and with both set the encoding lists [lang_en] first. *)
Lemma declaration_order_counterexample :
  map fst (__iter__ Language (none Language))
  <> map fp_name (cls_body Language) /\
  map fp_name
      (filter (fun p => String.eqb (fp_name p) "german" ||
                        String.eqb (fp_name p) "english")
              (cls_body Language)) = ["german"; "english"]%list /\
  (x <- from_flags Language [("german", true); ("english", true)]%list ;;
   Ok (to_google_flags Language x)) = Ok (Some "lang_en|lang_de").
Proof.
  split; [|split]; vm_compute; [discriminate | reflexivity | reflexivity].
Qed.

(** ** Unknown names *)

Lemma class_getattr_unknown (cls : flags_class) (name : string) :
  ~ In name (flag_values cls) -> class_getattr cls name = None.
Proof.
  intros Hn. destruct (class_getattr cls name) as [p|] eqn:E; [|reflexivity].
  exfalso. apply Hn. apply in_flag_values. exists p.
  now apply class_getattr_Some.
Qed.


Section Payload.

Context {A : Type} `{PyInt A}.


Lemma setattr_value (cls : flags_class) (self : instance) (v : A) :
  ~ In "value" (flag_values cls) ->
  hasattr cls self "value" = true /\
  __setattr__ cls self "value" v = Ok {| value := as_int v |}.
Proof.
  intros Hn. unfold __setattr__, hasattr, object_setattr, find_attribute.
  rewrite (class_getattr_unknown cls "value" Hn). split; reflexivity.
Qed.

Lemma from_flags_loop_app (cls : flags_class) (l1 l2 : list (string * A)) :
  forall self,
    from_flags_loop cls self (l1 ++ l2)%list =
    (self' <- from_flags_loop cls self l1 ;; from_flags_loop cls self' l2).
Proof.
  induction l1 as [|[name v] l1 IH]; intros self; [reflexivity|].
  cbn [app from_flags_loop]. destruct (negb (hasattr cls self name));
    [reflexivity|].
  destruct (__setattr__ cls self name v) as [s|e]; [|reflexivity].
  cbn [bind]. apply IH.
Qed.

Lemma from_flags_loop_registered (cls : flags_class) (l : list (string * A)) :
  incl (map fst l) (flag_values cls) ->
  forall self, exists self', from_flags_loop cls self l = Ok self'.
Proof.
  induction l as [|[name v] l IH]; intros Hincl self.
  - now exists self.
  - assert (Hn : In name (flag_values cls)) by (apply Hincl; now left).
    assert (Hl : incl (map fst l) (flag_values cls)).
    { intros x Hx. apply Hincl. now right. }
    destruct (class_getattr_flag_values _ _ Hn) as [p Hp].
    destruct (IH Hl (__set__ p self v)) as [self' Hrun].
    exists self'. cbn [from_flags_loop].
    rewrite (hasattr_flag _ _ _ Hn). cbn [negb].
    now rewrite (setattr_flag _ _ _ _ _ Hp).
Qed.


Lemma from_flags_value (cls : flags_class) (pre post : list (string * A))
  (v : A) :
  incl (map fst pre) (flag_values cls) -> ~ In "value" (flag_values cls) ->
  from_flags cls (pre ++ ("value", v) :: post) =
  from_flags_loop cls {| value := as_int v |} post.
Proof.
  intros Hpre Hn. unfold from_flags. rewrite from_flags_loop_app.
  destruct (from_flags_loop_registered cls pre Hpre (_from_value 0))
    as [self' ->].
  cbn [bind from_flags_loop].
  destruct (setattr_value cls self' v Hn) as [-> ->]. reflexivity.
Qed.

End Payload.




(** ** Instances are determined by their flags *)

Lemma instance_ext (cls : flags_class) (s1 s2 : instance) :
  wf_class cls = true -> in_range cls s1 -> in_range cls s2 ->
  (forall m, In m (flag_values cls) -> get cls s1 m = get cls s2 m) ->
  s1 = s2.
Proof.
  intros Hwf H1 H2 Hget.
  assert (E : value s1 = value s2).
  { apply Z.bits_inj'. intros j Hj.
    destruct (Z_lt_le_dec j (len (flag_values cls))) as [Hlt|Hge].
    - unfold len in Hlt. rewrite flag_values_length in Hlt.
      destruct (nth_error (cls_body cls) (Z.to_nat j)) as [p|] eqn:Ep.
      + pose proof (nth_flag cls Hwf _ _ Ep) as Hf.
        pose proof (nth_error_In _ _ Ep) as Hin.
        pose proof (class_getattr_member cls p Hwf Hin) as Hp.
        assert (Hm : In (fp_name p) (flag_values cls)).
        { apply in_flag_values. now exists p. }
        specialize (Hget _ Hm).
        rewrite !(get_testbit _ _ _ _ _ Hp Hf) in Hget.
        now rewrite Z2Nat.id in Hget by exact Hj.
      + apply nth_error_None in Ep. lia.
    - pose proof (len_nonneg (flag_values cls)).
      rewrite (range_high_bits _ _ H H1 j Hge).
      now rewrite (range_high_bits _ _ H H2 j Hge). }
  destruct s1, s2. simpl in E. now subst.
Qed.

Lemma get_all (cls : flags_class) (m : string) :
  wf_class cls = true -> In m (flag_values cls) ->
  get cls (_from_value (2 ^ len (flag_values cls) - 1)) m = true.
Proof.
  intros Hwf Hm. destruct (flag_of_name _ _ Hwf Hm) as [p [k [Hp [Hk Hf]]]].
  rewrite (get_testbit _ _ _ _ _ Hp Hf). unfold _from_value. cbn [value].
  replace (2 ^ len (flag_values cls) - 1) with (Z.ones (len (flag_values cls)))
    by (rewrite Z.ones_equiv; lia).
  apply Z.ones_spec_low. unfold len. lia.
Qed.

Lemma all_in_range_value (cls : flags_class) :
  in_range cls (_from_value (2 ^ len (flag_values cls) - 1)).
Proof.
  unfold in_range, _from_value. cbn [value].
  pose proof (len_nonneg (flag_values cls)).
  assert (0 < 2 ^ len (flag_values cls)) by (apply Z.pow_pos_nonneg; lia).
  lia.
Qed.

Lemma in_set_names (cls : flags_class) (self : instance) (m : string) :
  In m (set_names cls self) <->
  In m (flag_values cls) /\ get cls self m = true.
Proof.
  unfold set_names, __iter__, __dict__.
  rewrite filter_map_swap, map_map. cbn [fst snd]. rewrite map_id.
  apply filter_In.
Qed.

Lemma in_unset_names (cls : flags_class) (self : instance) (m : string) :
  In m (unset_names cls self) <->
  In m (flag_values cls) /\ get cls self m = false.
Proof.
  unfold unset_names, __iter__, __dict__.
  rewrite filter_map_swap, map_map. cbn [fst snd]. rewrite map_id.
  rewrite filter_In, negb_true_iff. reflexivity.
Qed.

Lemma some_flag_set (cls : flags_class) (self : instance) :
  wf_class cls = true -> in_range cls self -> value self <> 0 ->
  set_names cls self <> [].
Proof.
  intros Hwf Hr H0 Hnil. apply H0.
  change (value self = value (none cls)). f_equal.
  apply (instance_ext cls); [exact Hwf | exact Hr | apply none_in_range |].
  intros m Hm. unfold none. rewrite (get_none cls m Hwf Hm).
  destruct (get cls self m) eqn:E; [|reflexivity].
  exfalso. assert (In m (set_names cls self)) as Hin
    by (apply in_set_names; auto).
  rewrite Hnil in Hin. contradiction.
Qed.

Lemma some_flag_unset (cls : flags_class) (self : instance) :
  wf_class cls = true -> in_range cls self ->
  value self <> 2 ^ len (flag_values cls) - 1 ->
  unset_names cls self <> [].
Proof.
  intros Hwf Hr H1 Hnil. apply H1.
  change (value self = value (_from_value (2 ^ len (flag_values cls) - 1))).
  f_equal.
  apply (instance_ext cls); [exact Hwf | exact Hr | apply all_in_range_value |].
  intros m Hm. rewrite (get_all cls m Hwf Hm).
  destruct (get cls self m) eqn:E; [reflexivity|].
  exfalso. assert (In m (unset_names cls self)) as Hin
    by (apply in_unset_names; auto).
  rewrite Hnil in Hin. contradiction.
Qed.

Lemma set_names_members (cls : flags_class) (self : instance) :
  wf_class cls = true ->
  set_names cls self =
  map fp_name (filter (fun p => __get__ p self) (getmembers cls)).
Proof.
  intros Hwf. unfold set_names. rewrite (iter_members cls self Hwf).
  now rewrite filter_map_swap, map_map.
Qed.

Lemma unset_names_members (cls : flags_class) (self : instance) :
  wf_class cls = true ->
  unset_names cls self =
  map fp_name (filter (fun p => negb (__get__ p self)) (getmembers cls)).
Proof.
  intros Hwf. unfold unset_names. rewrite (iter_members cls self Hwf).
  now rewrite filter_map_swap, map_map.
Qed.

(** ** The encoding is never empty *)

Lemma docs_nonempty_member (cls : flags_class) (p : flag_property) :
  docs_nonempty cls = true -> In p (getmembers cls) -> fp_doc p <> EmptyString.
Proof.
  intros Hd Hp. apply in_getmembers in Hp. unfold docs_nonempty in Hd.
  rewrite forallb_forall in Hd. specialize (Hd p Hp).
  apply negb_true_iff in Hd. now apply String.eqb_neq.
Qed.

Lemma join_nonempty (sep d : string) (rest : list string) :
  d <> EmptyString -> join sep (d :: rest) <> EmptyString.
Proof.
  intros Hd. unfold join. destruct d as [|c d]; [contradiction|].
  destruct rest; simpl; discriminate.
Qed.

Lemma docs_nonempty_filter (cls : flags_class) (f : flag_property -> bool) :
  docs_nonempty cls = true ->
  Forall (fun t => t <> EmptyString) (map fp_doc (filter f (getmembers cls))).
Proof.
  intros Hd. apply Forall_forall. intros t Ht.
  apply in_map_iff in Ht. destruct Ht as [p [<- Hp]].
  apply filter_In in Hp. destruct Hp as [Hp _].
  now apply (docs_nonempty_member cls p Hd).
Qed.

(** C9. On an instance whose value is in range, [to_google_flags] returns
    [None] or a string that is not empty: the positive list of the tokens
    of the set flags or the negated list of the tokens of the unset
    flags, and that list of tokens is not empty and holds no empty
    token. *)
Theorem to_google_flags_nonempty (cls : flags_class) (self : instance) :
  wf_class cls = true -> docs_nonempty cls = true -> in_range cls self ->
  to_google_flags cls self = None \/
  exists wire toks,
    to_google_flags cls self = Some wire /\ wire <> EmptyString /\
    toks <> [] /\ Forall (fun t => t <> EmptyString) toks /\
    ((wire = join "|" toks /\ toks = set_docs cls self) \/
     (wire = "-(" ++ join "|" toks ++ ")" /\ toks = unset_docs cls self)).
Proof.
  intros Hwf Hd Hr.
  destruct (Z.eq_dec (value self) 0) as [E0|N0].
  { left. apply to_google_flags_None_iff. now left. }
  destruct (Z.eq_dec (value self) (2 ^ len (flag_values cls) - 1)) as [E1|N1].
  { left. apply to_google_flags_None_iff. now right. }
  right. rewrite (to_google_flags_list cls self N0 N1).
  destruct (Z.ltb _ _).
  - exists ("-(" ++ join "|" (unset_docs cls self) ++ ")"), (unset_docs cls self).
    split; [reflexivity|]. split; [simpl; discriminate|].
    split; [|split; [|right; split; reflexivity]].
    + pose proof (some_flag_unset cls self Hwf Hr N1) as Hne.
      intros E. apply Hne. apply length_zero_iff_nil.
      apply (f_equal (@List.length string)) in E.
      unfold unset_docs in E. unfold unset_names.
      rewrite length_map in *. exact E.
    + rewrite (unset_docs_members cls self Hwf).
      now apply docs_nonempty_filter.
  - pose proof (some_flag_set cls self Hwf Hr N0) as Hne.
    assert (Hdocs : set_docs cls self <> []).
    { intros E. apply Hne. apply length_zero_iff_nil.
      apply (f_equal (@List.length string)) in E.
      unfold set_docs in E. unfold set_names.
      rewrite length_map in *. exact E. }
    assert (Hall : Forall (fun t => t <> EmptyString) (set_docs cls self)).
    { rewrite (set_docs_members cls self Hwf). now apply docs_nonempty_filter. }
    exists (join "|" (set_docs cls self)), (set_docs cls self).
    split; [reflexivity|]. split; [|split; [exact Hdocs|split; [exact Hall|]]].
    + destruct (set_docs cls self) as [|d ds]; [contradiction|].
      apply join_nonempty. now inversion Hall.
    + left. split; reflexivity.
Qed.

(** ** Splitting and unwrapping a wire string *)

Lemma strip_closing_append (body : string) :
  strip_closing (body ++ ")") = Some body.
Proof.
  induction body as [|c body IH]; [reflexivity|].
  destruct body as [|d body]; [reflexivity|].
  change (strip_closing (String c (String d body) ++ ")"))
    with (option_map (String c) (strip_closing (String d body ++ ")"))).
  now rewrite IH.
Qed.

Lemma strip_wrapper_negated (body : string) :
  strip_wrapper ("-(" ++ body ++ ")") = (true, body).
Proof.
  change ("-(" ++ body ++ ")") with (String "-" (String "(" (body ++ ")"))).
  unfold strip_wrapper. now rewrite strip_closing_append.
Qed.

Lemma strip_wrapper_plain (c : ascii) (s : string) :
  Ascii.eqb c "-" = false -> strip_wrapper (String c s) = (false, String c s).
Proof.
  intros Hc. destruct c as [[] [] [] [] [] [] [] []];
    try reflexivity; discriminate.
Qed.

Lemma split_plain (t : string) :
  count t "|" = O -> split t "|" = [t].
Proof.
  induction t as [|c t IH]; intros Hc; [reflexivity|].
  cbn [count split] in *. destruct (Ascii.eqb c "|"); [discriminate|].
  now rewrite (IH Hc).
Qed.

Lemma split_append (t rest : string) :
  count t "|" = O -> split (t ++ String "|" rest) "|" = t :: split rest "|".
Proof.
  induction t as [|c t IH]; intros Hc; [reflexivity|].
  cbn [count append split] in *. destruct (Ascii.eqb c "|"); [discriminate|].
  now rewrite (IH Hc).
Qed.

Lemma split_join (l : list string) :
  l <> [] -> Forall (fun t => count t "|" = O) l ->
  split (join "|" l) "|" = l.
Proof.
  unfold join. induction l as [|t l IH]; intros Hne Hall; [contradiction|].
  inversion Hall as [|? ? Ht Hl]; subst.
  destruct l as [|u l].
  - now apply split_plain.
  - change (String.concat "|" (t :: u :: l))
      with (t ++ String "|" (String.concat "|" (u :: l))).
    rewrite (split_append _ _ Ht). f_equal. apply IH; [discriminate|exact Hl].
Qed.

Section Tokens.

Variable cls : flags_class.
Hypothesis Htok : wf_tokens cls = true.

Lemma wf_tokens_plain (p : flag_property) :
  In p (getmembers cls) -> plain_token (fp_doc p) = true.
Proof.
  intros Hp. apply in_getmembers in Hp. unfold wf_tokens in Htok.
  apply andb_prop in Htok. destruct Htok as [H _].
  rewrite forallb_forall in H. now apply H.
Qed.

Lemma wf_tokens_distinct : NoDup (map fp_doc (cls_body cls)).
Proof.
  apply distinct_NoDup. unfold wf_tokens in Htok.
  now apply andb_prop in Htok.
Qed.

Lemma name_of_token_member (p : flag_property) :
  In p (getmembers cls) -> name_of_token cls (fp_doc p) = Some (fp_name p).
Proof.
  intros Hp. unfold name_of_token.
  destruct (find (fun q => String.eqb (fp_doc q) (fp_doc p)) (getmembers cls))
    as [q|] eqn:E.
  - apply find_some in E. destruct E as [Hq Heq].
    apply String.eqb_eq in Heq. simpl. do 2 f_equal.
    apply (map_injective_in fp_doc (cls_body cls) wf_tokens_distinct);
      [now apply in_getmembers | now apply in_getmembers | exact Heq].
  - pose proof (find_none _ _ E p Hp) as Hf. simpl in Hf.
    now rewrite String.eqb_refl in Hf.
Qed.

Lemma names_of_tokens_members (ps : list flag_property) :
  incl ps (getmembers cls) ->
  names_of_tokens cls (map fp_doc ps) = Some (map fp_name ps).
Proof.
  induction ps as [|p ps IH]; intros Hincl; [reflexivity|].
  cbn [map names_of_tokens].
  rewrite name_of_token_member by (apply Hincl; now left).
  rewrite IH; [reflexivity|]. intros x Hx. apply Hincl. now right.
Qed.

Lemma docs_no_separator (ps : list flag_property) :
  incl ps (getmembers cls) ->
  Forall (fun t => count t "|" = O) (map fp_doc ps).
Proof.
  intros Hincl. apply Forall_forall. intros t Ht.
  apply in_map_iff in Ht. destruct Ht as [p [<- Hp]].
  pose proof (wf_tokens_plain p (Hincl p Hp)) as H.
  unfold plain_token in H. destruct (fp_doc p) as [|c s]; [discriminate|].
  apply andb_prop in H. destruct H as [_ H]. now apply Nat.eqb_eq.
Qed.

Lemma positive_not_wrapped (ps : list flag_property) :
  incl ps (getmembers cls) -> ps <> [] ->
  strip_wrapper (join "|" (map fp_doc ps)) = (false, join "|" (map fp_doc ps)).
Proof.
  intros Hincl Hne. destruct ps as [|p ps]; [contradiction|].
  pose proof (wf_tokens_plain p (Hincl p (or_introl eq_refl))) as H.
  unfold plain_token in H. unfold join. cbn [map].
  destruct (fp_doc p) as [|c s] eqn:E; [discriminate|].
  apply andb_prop in H. destruct H as [H _]. apply negb_true_iff in H.
  destruct (map fp_doc ps) as [|u us]; cbn [String.concat append];
    now apply strip_wrapper_plain.
Qed.

Lemma decode_positive (ps : list flag_property) :
  incl ps (getmembers cls) -> ps <> [] ->
  decode cls (join "|" (map fp_doc ps)) = Some (false, map fp_name ps).
Proof.
  intros Hincl Hne. unfold decode.
  rewrite (positive_not_wrapped ps Hincl Hne).
  rewrite split_join.
  - now rewrite (names_of_tokens_members ps Hincl).
  - destruct ps; [contradiction | discriminate].
  - now apply docs_no_separator.
Qed.

Lemma decode_negated (ps : list flag_property) :
  incl ps (getmembers cls) -> ps <> [] ->
  decode cls ("-(" ++ join "|" (map fp_doc ps) ++ ")")
  = Some (true, map fp_name ps).
Proof.
  intros Hincl Hne. unfold decode. rewrite strip_wrapper_negated.
  rewrite split_join.
  - now rewrite (names_of_tokens_members ps Hincl).
  - destruct ps; [contradiction | discriminate].
  - now apply docs_no_separator.
Qed.

End Tokens.

(** ** Rebuilding an instance from decoded names *)

Lemma assign_all_false (cls : flags_class) (names : list string) :
  wf_class cls = true -> incl names (flag_values cls) ->
  forall self, in_range cls self ->
  exists self',
    assign_all cls self names false = Ok self' /\
    in_range cls self' /\
    forall m, In m (flag_values cls) ->
              (get cls self' m = true <->
               get cls self m = true /\ ~ In m names).
Proof.
  intros Hwf. induction names as [|n names IH]; intros Hincl self Hr.
  - exists self. split; [reflexivity|]. split; [exact Hr|].
    intros m _. simpl. tauto.
  - assert (Hn : In n (flag_values cls)) by (apply Hincl; now left).
    assert (Hrest : incl names (flag_values cls)).
    { intros x Hx. apply Hincl. now right. }
    destruct (flag_of_name _ _ Hwf Hn) as [p [k [Hp [Hk Hf]]]].
    assert (Hr' : in_range cls (__set__ p self false)).
    { unfold in_range, __set__. rewrite Hf. apply set_flag_range; [|exact Hr].
      unfold len. lia. }
    destruct (IH Hrest (__set__ p self false) Hr') as [self' [Hrun [Hin Hget]]].
    exists self'. split; [|split; [exact Hin|]].
    + cbn [assign_all]. rewrite (setattr_flag _ _ _ _ _ Hp). exact Hrun.
    + intros m Hm. rewrite (Hget m Hm).
      destruct (string_dec m n) as [->|Hne].
      * rewrite (get_set_same _ _ _ _ _ Hwf Hp). simpl.
        intuition discriminate.
      * rewrite (get_set_other cls self n m p false Hwf Hp Hm Hne).
        simpl. intuition congruence.
Qed.

Lemma bool_eq_iff (a b : bool) : (a = true <-> b = true) -> a = b.
Proof. destruct a, b; intuition discriminate. Qed.

Lemma body_nonempty (cls : flags_class) (self : instance) :
  in_range cls self -> value self <> 0 -> cls_body cls <> [].
Proof.
  intros Hr H0 Hnil. unfold in_range, len in Hr.
  rewrite flag_values_length, Hnil in Hr. simpl in Hr. lia.
Qed.

Lemma rebuild_positive (cls : flags_class) (self : instance) :
  wf_class cls = true -> in_range cls self -> value self <> 0 ->
  rebuild cls (false, set_names cls self) = Ok self.
Proof.
  intros Hwf Hr H0. unfold rebuild.
  assert (Hincl : incl (set_names cls self) (flag_values cls)).
  { intros m Hm. now apply in_set_names in Hm. }
  destruct (from_flags_loop_named cls _ Hwf Hincl (_from_value 0))
    as [self' [Hrun Hget]].
  unfold from_flags. rewrite Hrun. f_equal.
  apply (instance_ext cls); [exact Hwf | | exact Hr |].
  - apply (from_flags_loop_in_range cls _ Hwf (body_nonempty cls self Hr H0)
             (_from_value 0) self' (none_in_range cls) Hrun).
  - intros m Hm. apply bool_eq_iff. rewrite (Hget m Hm).
    rewrite (get_none cls m Hwf Hm), in_set_names. intuition discriminate.
Qed.

Lemma rebuild_negated (cls : flags_class) (self : instance) :
  wf_class cls = true -> in_range cls self -> value self <> 0 ->
  rebuild cls (true, unset_names cls self) = Ok self.
Proof.
  intros Hwf Hr H0. unfold rebuild.
  rewrite (all_value cls (body_nonempty cls self Hr H0)). cbn [bind].
  assert (Hincl : incl (unset_names cls self) (flag_values cls)).
  { intros m Hm. now apply in_unset_names in Hm. }
  destruct (assign_all_false cls _ Hwf Hincl _ (all_in_range_value cls))
    as [self' [Hrun [Hin Hget]]].
  rewrite Hrun. f_equal.
  apply (instance_ext cls); [exact Hwf | exact Hin | exact Hr |].
  intros m Hm. apply bool_eq_iff. rewrite (Hget m Hm).
  rewrite (get_all cls m Hwf Hm), in_unset_names.
  destruct (get cls self m); intuition discriminate.
Qed.

(** C5. For a value in range that is neither 0 nor 2^N - 1, the wire
    string decodes (wrapper stripped, split on the separator, tokens
    mapped to names) to the names of the set flags of a positive list, or
    of the unset flags of a negated list, and these names rebuild the
    instance. *)
Theorem wire_round_trip (cls : flags_class) (self : instance) :
  wf_class cls = true -> wf_tokens cls = true -> in_range cls self ->
  value self <> 0 -> value self <> 2 ^ len (flag_values cls) - 1 ->
  exists wire negated names,
    to_google_flags cls self = Some wire /\
    decode cls wire = Some (negated, names) /\
    names = (if negated then unset_names cls self else set_names cls self) /\
    rebuild cls (negated, names) = Ok self.
Proof.
  intros Hwf Htok Hr H0 H1.
  rewrite (to_google_flags_list cls self H0 H1).
  destruct (Z.ltb _ _).
  - exists ("-(" ++ join "|" (unset_docs cls self) ++ ")"), true,
      (unset_names cls self).
    split; [reflexivity|]. split; [|split; [reflexivity|]].
    + rewrite (unset_docs_members cls self Hwf).
      rewrite (unset_names_members cls self Hwf).
      apply (decode_negated cls Htok).
      * intros p Hp. now apply filter_In in Hp.
      * pose proof (some_flag_unset cls self Hwf Hr H1) as Hne.
        rewrite (unset_names_members cls self Hwf) in Hne.
        intros E. rewrite E in Hne. now apply Hne.
    + now apply rebuild_negated.
  - exists (join "|" (set_docs cls self)), false, (set_names cls self).
    split; [reflexivity|]. split; [|split; [reflexivity|]].
    + rewrite (set_docs_members cls self Hwf).
      rewrite (set_names_members cls self Hwf).
      apply (decode_positive cls Htok).
      * intros p Hp. now apply filter_In in Hp.
      * pose proof (some_flag_set cls self Hwf Hr H0) as Hne.
        rewrite (set_names_members cls self Hwf) in Hne.
        intros E. rewrite E in Hne. now apply Hne.
    + now apply rebuild_positive.
Qed.

(** ** The positive list is never mistaken for a negated one *)

Lemma positive_prefix (cls : flags_class) (self : instance) :
  wf_class cls = true -> wf_tokens cls = true ->
  in_range cls self -> value self <> 0 ->
  String.prefix "-(" (join "|" (set_docs cls self)) = false.
Proof.
  intros Hwf Htok Hr H0.
  pose proof (some_flag_set cls self Hwf Hr H0) as Hne.
  rewrite (set_names_members cls self Hwf) in Hne.
  rewrite (set_docs_members cls self Hwf).
  destruct (filter (fun p => __get__ p self) (getmembers cls))
    as [|p ps] eqn:E; [contradiction|].
  assert (Hp : In p (getmembers cls)).
  { assert (In p (filter (fun p => __get__ p self) (getmembers cls))) as Hin
      by (rewrite E; now left).
    now apply filter_In in Hin. }
  pose proof (wf_tokens_plain cls Htok p Hp) as Hplain.
  unfold plain_token in Hplain. unfold join. cbn [map].
  destruct (fp_doc p) as [|c d]; [discriminate|].
  apply andb_prop in Hplain. destruct Hplain as [Hc _].
  apply negb_true_iff in Hc.
  assert (Hpre : forall rest, String.prefix "-(" (String c rest) = false).
  { intros rest. cbn [String.prefix].
    destruct (ascii_dec "-" c) as [<-|]; [discriminate|reflexivity]. }
  destruct (map fp_doc ps); cbn [String.concat append]; apply Hpre.
Qed.

(** C1. With k flags set, 0 < k < N, the negated list is produced when
    2k > N and the positive list otherwise; at the tie 2k = N the positive
    list is produced, and with well-formed tokens it does not start with
    the negation wrapper. *)
Theorem encoding_choice (cls : flags_class) (self : instance) (k : nat) :
  wf_class cls = true -> in_range cls self ->
  set_count cls self = k -> (0 < k < List.length (flag_values cls))%nat ->
  (len (flag_values cls) < 2 * Z.of_nat k ->
   to_google_flags cls self =
   Some ("-(" ++ join "|" (unset_docs cls self) ++ ")")) /\
  (2 * Z.of_nat k <= len (flag_values cls) ->
   to_google_flags cls self = Some (join "|" (set_docs cls self))) /\
  (2 * Z.of_nat k = len (flag_values cls) ->
   to_google_flags cls self = Some (join "|" (set_docs cls self)) /\
   (wf_tokens cls = true ->
    String.prefix "-(" (join "|" (set_docs cls self)) = false)).
Proof.
  intros Hwf Hr Hk Hbound.
  destruct (encoding_choice_aux cls self k Hwf Hr Hk Hbound) as [Hneg Hpos].
  repeat split; [exact Hneg | exact Hpos | |].
  - intros. apply Hpos. lia.
  - intros Htok. apply (positive_prefix cls self Hwf Htok Hr).
    subst k. now destruct (partial_value cls self Hwf Hbound).
Qed.

(** ** The two tables of the repository *)

Lemma Language_well_formed :
  wf_class Language = true /\ wf_tokens Language = true /\
  docs_nonempty Language = true /\ List.length (flag_values Language) = 35%nat.
Proof. repeat split; vm_compute; reflexivity. Qed.

Lemma CountryCode_well_formed :
  wf_class CountryCode = true /\ wf_tokens CountryCode = true /\
  docs_nonempty CountryCode = true /\
  List.length (flag_values CountryCode) = 242%nat.
Proof. repeat split; vm_compute; reflexivity. Qed.

(** ** The theorems at concrete instances *)

Lemma existsb_In (name : string) (l : list string) :
  existsb (String.eqb name) l = true -> In name l.
Proof.
  intros H. apply existsb_exists in H. destruct H as [x [Hx E]].
  apply String.eqb_eq in E. now subst x.
Defined.

Lemma forallb_incl (S l : list string) :
  forallb (fun x => existsb (String.eqb x) l) S = true -> incl S l.
Proof.
  intros H x Hx. rewrite forallb_forall in H. apply existsb_In. now apply H.
Defined.

Lemma encoding_choice_witness :
  let self := _from_value 2176 in
  let tie := _from_value (2 ^ 121 - 1) in
  to_google_flags Language self = Some (join "|" (set_docs Language self)) /\
  to_google_flags CountryCode tie = Some (join "|" (set_docs CountryCode tie)) /\
  String.prefix "-(" (join "|" (set_docs CountryCode tie)) = false.
Proof.
  assert (Hr : in_range Language (_from_value 2176))
    by (apply in_rangeb_true; reflexivity).
  assert (Hb : (0 < 2 < List.length (flag_values Language))%nat)
    by (vm_compute; lia).
  destruct (encoding_choice Language (_from_value 2176) 2
              eq_refl Hr eq_refl Hb) as [_ [H _]].
  assert (Hwf : wf_class CountryCode = true) by (vm_compute; reflexivity).
  assert (Hr' : in_range CountryCode (_from_value (2 ^ 121 - 1)))
    by (apply in_rangeb_true; vm_compute; reflexivity).
  assert (Hk : set_count CountryCode (_from_value (2 ^ 121 - 1)) = 121%nat)
    by (vm_compute; reflexivity).
  assert (Hb' : (0 < 121 < List.length (flag_values CountryCode))%nat)
    by (vm_compute; lia).
  destruct (encoding_choice CountryCode (_from_value (2 ^ 121 - 1)) 121
              Hwf Hr' Hk Hb') as [_ [_ H']].
  assert (Htie : 2 * Z.of_nat 121 = len (flag_values CountryCode))
    by (vm_compute; reflexivity).
  assert (Htok : wf_tokens CountryCode = true) by (vm_compute; reflexivity).
  destruct (H' Htie) as [H1 H2].
  cbv zeta. split; [|split].
  - apply H. apply Z.leb_le. reflexivity.
  - exact H1.
  - exact (H2 Htok).
Defined.

Lemma to_google_flags_omitted_witness :
  cls_body Language <> [] /\
  exists a, all Language = Ok a /\
            value a = 2 ^ len (flag_values Language) - 1 /\
            to_google_flags Language a = None.
Proof.
  assert (H : cls_body Language <> []) by discriminate.
  split; [exact H|].
  exact (proj2 (proj2 (to_google_flags_omitted Language)) H).
Defined.

Lemma list_encodings_witness :
  let self := _from_value 128 in
  let comp := _from_value (2 ^ 35 - 1 - 128) in
  to_google_flags Language self = Some (join "|" (set_docs Language self)) /\
  List.length (set_docs Language self) = 1%nat /\
  to_google_flags Language comp =
  Some ("-(" ++ join "|" (set_docs Language self) ++ ")").
Proof.
  assert (Hr : in_range Language (_from_value 128))
    by (apply in_rangeb_true; reflexivity).
  assert (Hc : in_range Language (_from_value (2 ^ 35 - 1 - 128)))
    by (apply in_rangeb_true; reflexivity).
  assert (Hhalf : 2 * Z.of_nat 1 <= len (flag_values Language))
    by (apply Z.leb_le; reflexivity).
  assert (Hlt : 2 * Z.of_nat 1 < len (flag_values Language))
    by (apply Z.ltb_lt; reflexivity).
  destruct (list_encodings Language (_from_value 128) 1
              eq_refl Hr eq_refl (le_n 1) Hhalf) as [[H1 H2] [H3 _]].
  destruct (H3 (_from_value (2 ^ 35 - 1 - 128)) Hc eq_refl Hlt)
    as [_ [_ H4]].
  cbv zeta. split; [exact H1|]. split; [exact H2 | exact H4].
Defined.

Lemma wire_round_trip_witness :
  let self := _from_value 2176 in
  exists wire negated names,
    to_google_flags Language self = Some wire /\
    decode Language wire = Some (negated, names) /\
    names = (if negated then unset_names Language self
             else set_names Language self) /\
    rebuild Language (negated, names) = Ok self.
Proof.
  apply (wire_round_trip Language (_from_value 2176)).
  - reflexivity.
  - reflexivity.
  - apply in_rangeb_true. reflexivity.
  - discriminate.
  - intros H. vm_compute in H. discriminate H.
Defined.

Lemma from_flags_get_witness :
  exists self,
    from_flags Language (named ["english"; "french"]%list) = Ok self /\
    forall name, In name (flag_values Language) ->
      exists b, getattr Language self name = Ok b /\
                (b = true <-> In name ["english"; "french"]%list).
Proof.
  apply (from_flags_get Language ["english"; "french"]%list).
  - reflexivity.
  - apply forallb_incl. reflexivity.
Defined.


Lemma reachable_in_range_witness :
  0 <= value (_from_value 2176) < 2 ^ len (flag_values Language).
Proof.
  apply (reachable_in_range Language (_from_value 2176)).
  - reflexivity.
  - discriminate.
  - apply (reach_set Language (_from_value 128) "french" true).
    + apply (reach_from_flags Language [("english", true)]%list). reflexivity.
    + apply existsb_In. reflexivity.
    + reflexivity.
Defined.

Lemma to_google_flags_nonempty_witness :
  let self := _from_value 2176 in
  to_google_flags Language self = None \/
  exists wire toks,
    to_google_flags Language self = Some wire /\ wire <> EmptyString /\
    toks <> [] /\ Forall (fun t => t <> EmptyString) toks /\
    ((wire = join "|" toks /\ toks = set_docs Language self) \/
     (wire = "-(" ++ join "|" toks ++ ")" /\ toks = unset_docs Language self)).
Proof.
  apply (to_google_flags_nonempty Language (_from_value 2176)).
  - reflexivity.
  - reflexivity.
  - apply in_rangeb_true. reflexivity.
Defined.

Lemma setattr_frame_witness :
  exists self',
    __setattr__ Language (_from_value 2176) "english" false = Ok self' /\
    getattr Language self' "english" = Ok false /\
    forall m, In m (flag_values Language) -> m <> "english" ->
              getattr Language self' m = getattr Language (_from_value 2176) m.
Proof.
  apply (setattr_frame Language (_from_value 2176) "english" false).
  - reflexivity.
  - apply existsb_In. reflexivity.
Defined.

(** * Further properties of [cse/flags.py] *)

Lemma instance_eq (a b : instance) : value a = value b -> a = b.
Proof. destruct a, b. simpl. now intros ->. Qed.

Lemma set_flag_comm (self : instance) (i j : Z) (a b : bool) :
  0 <= i -> 0 <= j -> i <> j ->
  _set_flag (_set_flag self (1 << i) a) (1 << j) b =
  _set_flag (_set_flag self (1 << j) b) (1 << i) a.
Proof.
  intros Hi Hj Hne. apply instance_eq. apply Z.bits_inj'. intros k Hk.
  rewrite !set_flag_testbit by lia.
  destruct (Z.eqb_spec j k), (Z.eqb_spec i k); try reflexivity. lia.
Qed.

Lemma set_flag_overwrite (self : instance) (i : Z) (a b : bool) :
  0 <= i ->
  _set_flag (_set_flag self (1 << i) a) (1 << i) b = _set_flag self (1 << i) b.
Proof.
  intros Hi. apply instance_eq. apply Z.bits_inj'. intros k Hk.
  rewrite !set_flag_testbit by lia. now destruct (Z.eqb i k).
Qed.

(** X1. Assignments to two different registered flags commute. *)
Theorem setattr_commute (cls : flags_class) (self : instance)
  (n m : string) (a b : bool) :
  wf_class cls = true ->
  In n (flag_values cls) -> In m (flag_values cls) -> n <> m ->
  exists s,
    (s1 <- __setattr__ cls self n a ;; __setattr__ cls s1 m b) = Ok s /\
    (s1 <- __setattr__ cls self m b ;; __setattr__ cls s1 n a) = Ok s.
Proof.
  intros Hwf Hn Hm Hne.
  destruct (flag_of_name _ _ Hwf Hn) as [p [i [Hp [_ Hf]]]].
  destruct (flag_of_name _ _ Hwf Hm) as [q [j [Hq [_ Hg]]]].
  rewrite (setattr_flag cls self n p a Hp), (setattr_flag cls self m q b Hq).
  cbn [bind].
  rewrite (setattr_flag cls _ m q b Hq), (setattr_flag cls _ n p a Hp).
  eexists. split; [reflexivity|]. f_equal. unfold __set__. rewrite Hf, Hg.
  symmetry. apply set_flag_comm; try lia.
  intros E. apply (names_flags_differ cls n m p q Hwf Hp Hq Hne).
  rewrite Hf, Hg. now rewrite E.
Qed.

(** X2. Of two assignments to the same registered flag the last one
    stands: the first leaves no trace. *)
Theorem setattr_overwrite (cls : flags_class) (self : instance)
  (n : string) (a b : bool) :
  wf_class cls = true -> In n (flag_values cls) ->
  (s1 <- __setattr__ cls self n a ;; __setattr__ cls s1 n b) =
  __setattr__ cls self n b.
Proof.
  intros Hwf Hn.
  destruct (flag_of_name _ _ Hwf Hn) as [p [i [Hp [_ Hf]]]].
  rewrite (setattr_flag cls self n p a Hp). cbn [bind].
  rewrite !(setattr_flag cls _ n p b Hp). f_equal.
  unfold __set__. rewrite Hf. apply set_flag_overwrite. lia.
Qed.

Lemma from_flags_loop_get (cls : flags_class) (flags : list (string * bool)) :
  wf_class cls = true ->
  incl (map fst flags) (flag_values cls) -> NoDup (map fst flags) ->
  forall self, exists self',
    from_flags_loop cls self flags = Ok self' /\
    forall m, In m (flag_values cls) ->
      (forall b, In (m, b) flags -> get cls self' m = b) /\
      (~ In m (map fst flags) -> get cls self' m = get cls self m).
Proof.
  intros Hwf. induction flags as [|[n v] rest IH]; intros Hincl Hnd self.
  - exists self. split; [reflexivity|]. intros m _. split; [contradiction|auto].
  - assert (Hn : In n (flag_values cls)) by (apply Hincl; now left).
    assert (Hrest : incl (map fst rest) (flag_values cls)).
    { intros x Hx. apply Hincl. now right. }
    inversion Hnd as [|? ? Hnotin Hnd']; subst.
    destruct (class_getattr_flag_values _ _ Hn) as [p Hp].
    destruct (IH Hrest Hnd' (__set__ p self v)) as [self' [Hrun Hget]].
    exists self'. split.
    + cbn [from_flags_loop]. rewrite (hasattr_flag _ _ _ Hn). cbn [negb].
      rewrite (setattr_flag _ _ _ _ _ Hp). exact Hrun.
    + intros m Hm. destruct (Hget m Hm) as [Hin Hout]. split.
      * intros b [E|Hb]; [|now apply Hin].
        injection E as -> ->. rewrite (Hout Hnotin).
        apply (get_set_same _ _ _ _ _ Hwf Hp).
      * intros Hnot. simpl in Hnot.
        rewrite Hout by tauto.
        apply (get_set_other cls self n m p v Hwf Hp Hm). intuition.
Qed.

(** X3. [from_flags] on keywords that are registered names reads back the
    mapping: a flag given a value reads that value, a flag not given reads
    False. *)
Theorem from_flags_reads_mapping (cls : flags_class)
  (flags : list (string * bool)) :
  wf_class cls = true ->
  incl (map fst flags) (flag_values cls) -> NoDup (map fst flags) ->
  exists self,
    from_flags cls flags = Ok self /\
    forall m, In m (flag_values cls) ->
      (forall b, In (m, b) flags -> getattr cls self m = Ok b) /\
      (~ In m (map fst flags) -> getattr cls self m = Ok false).
Proof.
  intros Hwf Hincl Hnd.
  destruct (from_flags_loop_get cls flags Hwf Hincl Hnd (_from_value 0))
    as [self [Hrun Hget]].
  exists self. split; [exact Hrun|]. intros m Hm.
  destruct (Hget m Hm) as [Hin Hout]. rewrite (getattr_get cls self m Hm).
  split.
  - intros b Hb. f_equal. now apply Hin.
  - intros Hnot. f_equal. rewrite (Hout Hnot). now apply get_none.
Qed.

(** X4. The keyword [value] is accepted by [from_flags] and replaces the
    whole value by the integer it carries, [True] and [False] as 1 and 0:
    what the keywords before it set is lost, and the keywords after it
    are applied to the new value. *)
Theorem from_flags_value_keyword {A : Type} `{PyInt A} (cls : flags_class)
  (pre post : list (string * A)) (v : A) :
  ~ In "value" (flag_values cls) ->
  incl (map fst pre) (flag_values cls) ->
  from_flags cls (pre ++ [("value", v)]) = Ok {| value := as_int v |} /\
  from_flags cls (pre ++ ("value", v) :: post) =
  from_flags_loop cls {| value := as_int v |} post.
Proof.
  intros Hv Hpre. split.
  - now rewrite (from_flags_value cls pre [] v Hpre Hv).
  - apply (from_flags_value cls pre post v Hpre Hv).
Qed.

(** X5. On a class with at least one flag, every registered flag reads
    True on [all()] and False on [none()]. *)
Theorem all_none_read (cls : flags_class) (m : string) :
  wf_class cls = true -> cls_body cls <> [] -> In m (flag_values cls) ->
  (exists a, all cls = Ok a /\ getattr cls a m = Ok true) /\
  getattr cls (none cls) m = Ok false.
Proof.
  intros Hwf Hne Hm. split.
  - eexists. split; [apply (all_value cls Hne)|].
    rewrite (getattr_get cls _ m Hm). f_equal. now apply get_all.
  - rewrite (getattr_get cls _ m Hm). f_equal. now apply get_none.
Qed.

Lemma unset_docs_length (cls : flags_class) (self : instance) :
  (List.length (unset_docs cls self) + set_count cls self)%nat =
  List.length (flag_values cls).
Proof.
  unfold unset_docs, set_count. rewrite length_map, Nat.add_comm.
  rewrite (filter_length_split (fun kv : string * bool => snd kv)).
  unfold __iter__, __dict__. apply length_map.
Qed.

(** X6. On an instance in range the encoding never lists more than half
    of the tokens: a positive list has between 1 and N/2 tokens, a
    negated list at least 1 and fewer than N/2. *)
Theorem wire_token_bound (cls : flags_class) (self : instance) (wire : string) :
  wf_class cls = true -> in_range cls self ->
  to_google_flags cls self = Some wire ->
  (wire = join "|" (set_docs cls self) /\
   (0 < List.length (set_docs cls self))%nat /\
   2 * len (set_docs cls self) <= len (flag_values cls)) \/
  (wire = "-(" ++ join "|" (unset_docs cls self) ++ ")" /\
   (0 < List.length (unset_docs cls self))%nat /\
   2 * len (unset_docs cls self) < len (flag_values cls)).
Proof.
  intros Hwf Hr Hw.
  assert (H0 : value self <> 0).
  { intros E. assert (to_google_flags cls self = None) as Hn
      by (apply to_google_flags_None_iff; now left). congruence. }
  assert (H1 : value self <> 2 ^ len (flag_values cls) - 1).
  { intros E. assert (to_google_flags cls self = None) as Hn
      by (apply to_google_flags_None_iff; now right). congruence. }
  rewrite (to_google_flags_list cls self H0 H1) in Hw.
  rewrite <- (set_count_bit_count cls self Hwf Hr) in Hw.
  pose proof (unset_docs_length cls self) as Hsum.
  pose proof (set_docs_length cls self) as Hset.
  destruct (Z.ltb_spec (len (flag_values cls))
                       (2 * Z.of_nat (set_count cls self))) as [Hlt|Hge];
    injection Hw as <-.
  - right. split; [reflexivity|]. split.
    + pose proof (some_flag_unset cls self Hwf Hr H1) as Hne.
      assert (List.length (unset_names cls self)
              = List.length (unset_docs cls self)) as <-.
      { unfold unset_names, unset_docs. now rewrite !length_map. }
      destruct (unset_names cls self); [contradiction | simpl; lia].
    + unfold len in *. lia.
  - left. split; [reflexivity|]. split.
    + pose proof (some_flag_set cls self Hwf Hr H0) as Hne.
      assert (List.length (set_names cls self)
              = List.length (set_docs cls self)) as <-.
      { unfold set_names, set_docs. now rewrite !length_map. }
      destruct (set_names cls self); [contradiction | simpl; lia].
    + unfold len in *. lia.
Qed.

Lemma decode_encode (cls : flags_class) (self : instance) (wire : string) :
  wf_class cls = true -> wf_tokens cls = true -> in_range cls self ->
  to_google_flags cls self = Some wire ->
  exists d, decode cls wire = Some d /\ rebuild cls d = Ok self.
Proof.
  intros Hwf Htok Hr Hw.
  assert (H0 : value self <> 0).
  { intros E. assert (to_google_flags cls self = None) as Hn
      by (apply to_google_flags_None_iff; now left). congruence. }
  assert (H1 : value self <> 2 ^ len (flag_values cls) - 1).
  { intros E. assert (to_google_flags cls self = None) as Hn
      by (apply to_google_flags_None_iff; now right). congruence. }
  rewrite (to_google_flags_list cls self H0 H1) in Hw.
  destruct (Z.ltb _ _); injection Hw as <-.
  - exists (true, unset_names cls self). split; [|now apply rebuild_negated].
    rewrite (unset_docs_members cls self Hwf).
    rewrite (unset_names_members cls self Hwf).
    apply (decode_negated cls Htok).
    + intros p Hp. now apply filter_In in Hp.
    + pose proof (some_flag_unset cls self Hwf Hr H1) as Hne.
      rewrite (unset_names_members cls self Hwf) in Hne.
      intros E. rewrite E in Hne. now apply Hne.
  - exists (false, set_names cls self). split; [|now apply rebuild_positive].
    rewrite (set_docs_members cls self Hwf).
    rewrite (set_names_members cls self Hwf).
    apply (decode_positive cls Htok).
    + intros p Hp. now apply filter_In in Hp.
    + pose proof (some_flag_set cls self Hwf Hr H0) as Hne.
      rewrite (set_names_members cls self Hwf) in Hne.
      intros E. rewrite E in Hne. now apply Hne.
Qed.

(** X7. The encoding is injective: two instances in range that are given
    the same wire string are the same instance. *)
Theorem to_google_flags_injective (cls : flags_class) (a b : instance)
  (wire : string) :
  wf_class cls = true -> wf_tokens cls = true ->
  in_range cls a -> in_range cls b ->
  to_google_flags cls a = Some wire -> to_google_flags cls b = Some wire ->
  a = b.
Proof.
  intros Hwf Htok Ha Hb Hwa Hwb.
  destruct (decode_encode cls a wire Hwf Htok Ha Hwa) as [d [Hd Hra]].
  destruct (decode_encode cls b wire Hwf Htok Hb Hwb) as [d' [Hd' Hrb]].
  assert (d = d') by congruence. subst d'. congruence.
Qed.

Lemma bit_count_flag (j : Z) : 0 <= j -> bit_count (1 << j) = 1%nat.
Proof.
  intros Hj. rewrite Z.shiftl_1_l. rewrite <- (Z2Nat.id j) by exact Hj.
  induction (Z.to_nat j) as [|n IH]; [reflexivity|].
  rewrite Nat2Z.inj_succ, Z.pow_succ_r by lia.
  assert (Hpos : 0 < 2 ^ Z.of_nat n) by (apply Z.pow_pos_nonneg; lia).
  destruct (2 ^ Z.of_nat n) as [|p|p]; try lia. exact IH.
Qed.

Lemma filter_nil {A : Type} (f : A -> bool) (l : list A) :
  (forall x, In x l -> f x = false) -> filter f l = [].
Proof.
  induction l as [|x l IH]; intros H; [reflexivity|].
  simpl. rewrite (H x (or_introl eq_refl)). apply IH.
  intros y Hy. apply H. now right.
Qed.

(** X8. A value whose only bit lies at or above the number of flags, as
    [_from_value] or an assignment to [value] can store, is encoded as
    the empty string when the class has two flags or more. *)
Theorem out_of_range_empty_string (cls : flags_class) (j : Z) :
  wf_class cls = true ->
  2 <= len (flag_values cls) -> len (flag_values cls) <= j ->
  to_google_flags cls (_from_value (1 << j)) = Some EmptyString.
Proof.
  intros Hwf H2 Hj.
  assert (Hpos : 0 < 1 << j) by (apply flag_pos; lia).
  assert (Hle : 2 ^ len (flag_values cls) <= 1 << j).
  { rewrite Z.shiftl_1_l. apply Z.pow_le_mono_r; lia. }
  rewrite to_google_flags_list; unfold _from_value; cbn [value]; try lia.
  rewrite bit_count_flag by lia.
  destruct (Z.ltb_spec (len (flag_values cls)) (2 * Z.of_nat 1)); [lia|].
  f_equal. rewrite (set_docs_members cls _ Hwf).
  rewrite filter_nil; [reflexivity|].
  intros p Hp. apply in_getmembers in Hp.
  destruct (flag_shape cls Hwf p Hp) as [k [Hk Hf]].
  unfold __get__. rewrite Hf, has_flag_testbit by lia. cbn [value].
  rewrite testbit_flag by lia. apply Z.eqb_neq.
  unfold len in Hj. rewrite flag_values_length in Hj. lia.
Qed.

Lemma set_docs_set_names (cls : flags_class) (self : instance) :
  set_docs cls self = map (doc cls) (set_names cls self).
Proof. unfold set_docs, set_names. now rewrite map_map. Qed.

Lemma singleton_of_length {A : Type} (l : list A) (x : A) :
  List.length l = 1%nat -> In x l -> l = [x].
Proof.
  destruct l as [|y [|z l]]; simpl; intros Hl Hin; try discriminate.
  destruct Hin as [->|[]]. reflexivity.
Qed.

Lemma single_flag_instance (cls : flags_class) (n : string)
  (p : flag_property) (k : nat) :
  wf_class cls = true -> In n (flag_values cls) ->
  class_getattr cls n = Some p -> fp_flag p = 1 << Z.of_nat k ->
  (k < List.length (flag_values cls))%nat ->
  let s := __set__ p (_from_value 0) true in
  in_range cls s /\ set_count cls s = 1%nat /\ set_docs cls s = [doc cls n].
Proof.
  intros Hwf Hn Hp Hf Hk s.
  assert (Hr : in_range cls s).
  { unfold s, in_range, __set__. rewrite Hf. apply set_flag_range.
    - unfold len. lia.
    - apply (none_in_range cls). }
  assert (Hc : set_count cls s = 1%nat).
  { rewrite (set_count_bit_count cls s Hwf Hr).
    unfold s, __set__, _set_flag, _from_value. cbn [value].
    rewrite Hf, Z.lor_0_l. apply bit_count_flag. lia. }
  split; [exact Hr|]. split; [exact Hc|].
  rewrite set_docs_set_names.
  rewrite (singleton_of_length (set_names cls s) n); [reflexivity | |].
  - rewrite <- Hc. unfold set_names, set_count. apply length_map.
  - apply in_set_names. split; [exact Hn|].
    apply (get_set_same cls _ n p true Hwf Hp).
Qed.

(** X9. One flag alone is encoded as its token, and every flag but one as
    that token inside the negation wrapper, on a class with at least two,
    respectively three, flags. *)
Theorem single_flag_encodings (cls : flags_class) (n : string) :
  wf_class cls = true -> In n (flag_values cls) ->
  (2 <= len (flag_values cls) ->
   exists s, from_flags cls [(n, true)] = Ok s /\
             to_google_flags cls s = Some (doc cls n)) /\
  (3 <= len (flag_values cls) ->
   exists a s, all cls = Ok a /\ __setattr__ cls a n false = Ok s /\
               to_google_flags cls s = Some ("-(" ++ doc cls n ++ ")")).
Proof.
  intros Hwf Hn.
  destruct (flag_of_name _ _ Hwf Hn) as [p [k [Hp [Hk Hf]]]].
  destruct (single_flag_instance cls n p k Hwf Hn Hp Hf Hk) as [Hr [Hc Hd]].
  split; intros HN; unfold len in HN.
  - exists (__set__ p (_from_value 0) true). split.
    + unfold from_flags. cbn [from_flags_loop].
      rewrite (hasattr_flag _ _ _ Hn). cbn [negb].
      now rewrite (setattr_flag _ _ _ _ _ Hp).
    + assert (Hb : (0 < 1 < List.length (flag_values cls))%nat) by lia.
      destruct (encoding_choice_aux cls _ 1 Hwf Hr Hc Hb) as [_ H].
      rewrite H by (unfold len; lia). now rewrite Hd.
  - assert (Hne : cls_body cls <> []).
    { intros E. rewrite flag_values_length, E in HN. simpl in HN. lia. }
    set (a := _from_value (2 ^ len (flag_values cls) - 1)).
    exists a, (__set__ p a false).
    split; [apply (all_value cls Hne)|].
    split; [apply (setattr_flag _ _ _ _ _ Hp)|].
    assert (Hra : in_range cls (__set__ p a false)).
    { unfold in_range, __set__. rewrite Hf. apply set_flag_range.
      - unfold len. lia.
      - apply (all_in_range_value cls). }
    assert (Hcomp : is_complement cls (__set__ p (_from_value 0) true)
                                  (__set__ p a false) = true).
    { unfold is_complement. apply forallb_forall. intros m Hm.
      destruct (string_dec m n) as [->|Hmn].
      - now rewrite !(get_set_same cls _ n p _ Hwf Hp).
      - rewrite !(get_set_other cls _ n m p _ Hwf Hp Hm Hmn).
        unfold a. now rewrite (get_all cls m Hwf Hm), (get_none cls m Hwf Hm). }
    pose proof (complement_set_count cls _ _ Hwf Hcomp) as Hsum.
    rewrite Hc in Hsum.
    assert (Hkc : set_count cls (__set__ p a false)
                  = (List.length (flag_values cls) - 1)%nat) by lia.
    assert (Hb : (0 < List.length (flag_values cls) - 1
                  < List.length (flag_values cls))%nat) by lia.
    destruct (encoding_choice_aux cls _ _ Hwf Hra Hkc Hb) as [H _].
    rewrite H by (unfold len; lia).
    rewrite (complement_unset_docs cls _ _ Hwf Hcomp), Hd. reflexivity.
Qed.

(** * [cse/engine.py]: the parameters of a search *)

(** X10. The two range checks of [Search.search] never fire: for every
    pair of integers the parameters are built, with [num] the given
    [max_results] and [start] the given [start_index] plus one. *)
Theorem search_params_never_raises (self : Search.t) (query : string)
  (max_results start_index : Z) (language : option instance)
  (safe_search : bool) :
  exists params,
    Search.search_params self query max_results start_index language
                         safe_search = Ok params /\
    param_lookup "num" params = Some (Search.PInt max_results) /\
    param_lookup "start" params = Some (Search.PInt (start_index + 1)).
Proof.
  unfold Search.search_params.
  assert (E1 : Z.gtb 1 max_results && Z.gtb max_results 10 = false).
  { rewrite !Z.gtb_ltb. destruct (Z.ltb_spec max_results 1);
      destruct (Z.ltb_spec 10 max_results); try reflexivity. lia. }
  assert (E2 : Z.gtb 0 start_index && Z.gtb start_index 100 = false).
  { rewrite !Z.gtb_ltb. destruct (Z.ltb_spec start_index 0);
      destruct (Z.ltb_spec 100 start_index); try reflexivity. lia. }
  rewrite E1, E2.
  destruct language as [flags|]; [destruct (to_google_flags Language flags)|];
    eexists; (split; [reflexivity|]); split; reflexivity.
Qed.

(** X11. The parameter [lr] is left out exactly when no language is given
    or the given flags have value 0 or 2^35 - 1; otherwise it is the wire
    string of the flags. *)
Theorem search_params_lr (self : Search.t) (query : string)
  (max_results start_index : Z) (language : option instance)
  (safe_search : bool) (params : list (string * Search.param)) :
  Search.search_params self query max_results start_index language
                       safe_search = Ok params ->
  (param_lookup "lr" params = None <->
   language = None \/
   exists flags, language = Some flags /\
                 (value flags = 0 \/ value flags = 2 ^ 35 - 1)) /\
  (forall wire, param_lookup "lr" params = Some (Search.PStr wire) <->
                exists flags, language = Some flags /\
                              to_google_flags Language flags = Some wire).
Proof.
  unfold Search.search_params.
  destruct (Z.gtb 1 max_results && Z.gtb max_results 10); [discriminate|].
  destruct (Z.gtb 0 start_index && Z.gtb start_index 100); [discriminate|].
  assert (Hlen : len (flag_values Language) = 35) by (vm_compute; reflexivity).
  destruct language as [flags|].
  - pose proof (to_google_flags_None_iff Language flags) as Hiff.
    rewrite Hlen in Hiff.
    destruct (to_google_flags Language flags) as [w|] eqn:E;
      intros H; injection H as <-; cbn [app param_lookup String.eqb Ascii.eqb
                                         Bool.eqb].
    + split.
      * split; [discriminate|]. intros [H|[f [Hf Hv]]]; [discriminate|].
        injection Hf as <-. apply Hiff in Hv. discriminate.
      * intros wire. split.
        -- intros H. injection H as <-. now exists flags.
        -- intros [f [Hf Hw]]. injection Hf as <-. congruence.
    + split.
      * split; [|reflexivity]. intros _. right. exists flags.
        split; [reflexivity|]. now apply Hiff.
      * intros wire. split; [discriminate|].
        intros [f [Hf Hw]]. injection Hf as <-. congruence.
  - intros H. injection H as <-. cbn. split.
    + split; [now left | reflexivity].
    + intros wire. split; [discriminate|]. intros [f [Hf _]]. discriminate.
Qed.

(** * [cse/engine.py] and [cse/result.py]: the decoded response *)

Lemma obind_throw {A B : Type} (r : outcome A) (k : A -> outcome B) (e : pyexn) :
  obind r k = Throw e ->
  r = Throw e \/ exists a, r = Return a /\ k a = Throw e.
Proof.
  destruct r as [a|e']; simpl; intros H.
  - right. now exists a.
  - left. now injection H as <-.
Qed.

Lemma obind_return {A B : Type} (r : outcome A) (k : A -> outcome B) (b : B) :
  obind r k = Return b -> exists a, r = Return a /\ k a = Return b.
Proof.
  destruct r as [a|e']; simpl; intros H; [now exists a | discriminate].
Qed.

Lemma getitem_not_api (v : json) (key : string) (e : pyexn) :
  getitem v key = Throw e -> api_error e = false.
Proof.
  destruct v; simpl; try (intros H; injection H as <-; reflexivity).
  destruct (assoc key members); [discriminate|].
  intros H; injection H as <-; reflexivity.
Qed.

Lemma getitem0_not_api (v : json) (e : pyexn) :
  getitem0 v = Throw e -> api_error e = false.
Proof.
  destruct v as [| | |s|items|members]; simpl;
    try (intros H; injection H as <-; reflexivity).
  - destruct s; [|discriminate]. intros H; injection H as <-; reflexivity.
  - destruct items; [|discriminate]. intros H; injection H as <-; reflexivity.
Qed.

Lemma get_method_not_api (v : json) (key : string) (e : pyexn) :
  get_method v key = Throw e -> api_error e = false.
Proof.
  destruct v; simpl; try discriminate; intros H; injection H as <-; reflexivity.
Qed.

Lemma split_method_not_api (v : json) (sep : ascii) (e : pyexn) :
  split_method v sep = Throw e -> api_error e = false.
Proof.
  destruct v; simpl; try discriminate; intros H; injection H as <-; reflexivity.
Qed.

Lemma iterate_not_api (v : json) (e : pyexn) :
  iterate v = Throw e -> api_error e = false.
Proof.
  destruct v; simpl; try discriminate; intros H; injection H as <-; reflexivity.
Qed.

Lemma init_not_api (data : json) (e : pyexn) :
  SearchResult.__init__ data = Throw e -> api_error e = false.
Proof.
  unfold SearchResult.__init__. intros H.
  apply obind_throw in H. destruct H as [H|[title [_ H]]];
    [now apply getitem_not_api in H|].
  apply obind_throw in H. destruct H as [H|[snip [_ H]]];
    [now apply get_method_not_api in H|].
  apply obind_throw in H. destruct H as [H|[snippet [_ H]]].
  { destruct (truthy snip); [|discriminate].
    apply obind_throw in H. destruct H as [H|[parts [_ H]]];
      [now apply split_method_not_api in H | discriminate]. }
  apply obind_throw in H. destruct H as [H|[link [_ H]]];
    [now apply getitem_not_api in H|].
  apply obind_throw in H. destruct H as [H|[pagemap [_ H]]];
    [now apply getitem_not_api in H|].
  apply obind_throw in H. destruct H as [H|[image [_ H]]];
    [now apply get_method_not_api in H|].
  apply obind_throw in H. destruct H as [H|[src [_ H]]]; [|discriminate].
  destruct (truthy image); [|discriminate].
  apply obind_throw in H. destruct H as [H|[first [_ H]]];
    [now apply getitem0_not_api in H | now apply getitem_not_api in H].
Qed.

Lemma results_not_api (ds : list json) (e : pyexn) :
  Search.results ds = Throw e -> api_error e = false.
Proof.
  induction ds as [|d ds IH]; simpl; intros H; [discriminate|].
  apply obind_throw in H. destruct H as [H|[r [_ H]]];
    [now apply init_not_api in H|].
  apply obind_throw in H. destruct H as [H|[rs [_ H]]];
    [now apply IH | discriminate].
Qed.

(** X12. A response whose [error] entry is true (a non-empty dict, as the
    API sends) makes [search] fail on the attribute [status], which no
    decoded value has. *)
Theorem error_is_attribute_error (response error : json) :
  get_method response "error" = Return error -> truthy error = true ->
  Search.search_response response = Throw (NoAttribute "status").
Proof.
  intros Hget Htrue. unfold Search.search_response.
  rewrite Hget. cbn [obind]. now rewrite Htrue.
Qed.

(** X13. Whatever the response, [search] raises neither
    [QuotaExceededError] nor [SearchError]. *)
Theorem api_errors_never_raised (response : json) :
  Search.search_response response <> Throw QuotaExceededError /\
  forall data, Search.search_response response <> Throw (SearchError data).
Proof.
  assert (H : forall e, Search.search_response response = Throw e ->
                        api_error e = false).
  { intros e H. unfold Search.search_response in H.
    apply obind_throw in H. destruct H as [H|[error [_ H]]];
      [now apply get_method_not_api in H|].
    destruct (truthy error).
    - simpl in H. injection H as <-. reflexivity.
    - apply obind_throw in H. destruct H as [H|[items [_ H]]];
        [now apply getitem_not_api in H|].
      apply obind_throw in H. destruct H as [H|[ds [_ H]]];
        [now apply iterate_not_api in H | now apply results_not_api in H]. }
  split.
  - intros E. apply H in E. discriminate.
  - intros data E. apply H in E. discriminate.
Qed.

(** X14. A response without an error and without the key [items] makes
    [search] raise [KeyError] for [items]. *)
Theorem missing_items_key_error (members : list (string * json)) :
  (forall error, assoc "error" members = Some error -> truthy error = false) ->
  assoc "items" members = None ->
  Search.search_response (JObj members) = Throw (KeyError (JStr "items")).
Proof.
  intros Herr Hitems. unfold Search.search_response, get_method, getitem.
  cbn [obind].
  assert (E : truthy (match assoc "error" members with
                      | Some x => x | None => JNull end) = false).
  { destruct (assoc "error" members) as [x|] eqn:Ex; [now apply Herr|reflexivity]. }
  rewrite E, Hitems. reflexivity.
Qed.

Lemma split_nonempty (s : string) (c : ascii) : split s c <> [].
Proof.
  destruct s as [|d s]; simpl; [discriminate|].
  destruct (Ascii.eqb d c); [discriminate|].
  destruct (split s c); discriminate.
Qed.

Lemma join_split_remove (s : string) (c : ascii) :
  join EmptyString (split s c) = remove_char c s.
Proof.
  unfold join. induction s as [|d s IH]; [reflexivity|].
  cbn [split remove_char]. pose proof (split_nonempty s c) as Hne.
  destruct (split s c) as [|tok toks]; [contradiction|].
  destruct (Ascii.eqb d c).
  - rewrite <- IH. reflexivity.
  - rewrite <- IH. destruct toks; reflexivity.
Qed.

Lemma remove_char_count (s : string) (c : ascii) :
  count (remove_char c s) c = O.
Proof.
  induction s as [|d s IH]; [reflexivity|]. simpl.
  destruct (Ascii.eqb d c) eqn:E; [exact IH|]. simpl. now rewrite E.
Qed.

Lemma snippet_cleaned (s : string) :
  (if truthy (JStr s)
   then parts <~ split_method (JStr s) newline ;;
        Return (JStr (join EmptyString parts))
   else Return (JStr s))
  = Return (JStr (remove_char newline s)).
Proof.
  destruct s as [|c s]; [reflexivity|].
  change (truthy (JStr (String c s))) with true. cbv iota.
  unfold split_method. cbn [obind]. now rewrite join_split_remove.
Qed.

(** X15. The stored snippet is the given one without its newlines, and
    [None] when the item has no snippet. *)
Theorem snippet_without_newlines (members : list (string * json))
  (r : SearchResult.t) :
  SearchResult.__init__ (JObj members) = Return r ->
  (forall s, assoc "snippet" members = Some (JStr s) ->
             SearchResult.snippet r = JStr (remove_char newline s) /\
             count (remove_char newline s) newline = O) /\
  (assoc "snippet" members = None -> SearchResult.snippet r = JNull).
Proof.
  unfold SearchResult.__init__. intros H.
  apply obind_return in H. destruct H as [title [_ H]].
  apply obind_return in H. destruct H as [snip [Hsnip H]].
  apply obind_return in H. destruct H as [snippet [Hsnippet H]].
  apply obind_return in H. destruct H as [link [_ H]].
  apply obind_return in H. destruct H as [pagemap [_ H]].
  apply obind_return in H. destruct H as [image [_ H]].
  apply obind_return in H. destruct H as [src [_ H]].
  injection H as <-. cbn [SearchResult.snippet].
  simpl in Hsnip. injection Hsnip as <-. split.
  - intros s Hs. rewrite Hs in Hsnippet.
    split; [|apply remove_char_count].
    rewrite snippet_cleaned in Hsnippet. now injection Hsnippet as <-.
  - intros Hs. rewrite Hs in Hsnippet. simpl in Hsnippet.
    now injection Hsnippet as <-.
Qed.

(** X16. An item without the key [pagemap] is refused with [KeyError],
    though its title, link and snippet are in order. *)
Theorem missing_pagemap_key_error (members : list (string * json))
  (title link : json) :
  assoc "title" members = Some title ->
  assoc "link" members = Some link ->
  (assoc "snippet" members = None \/
   exists s, assoc "snippet" members = Some (JStr s)) ->
  assoc "pagemap" members = None ->
  SearchResult.__init__ (JObj members) = Throw (KeyError (JStr "pagemap")).
Proof.
  intros Ht Hl Hs Hp. unfold SearchResult.__init__, getitem, get_method.
  rewrite Ht, Hl, Hp. cbn [obind].
  destruct Hs as [Hs|[s Hs]]; rewrite Hs.
  - reflexivity.
  - destruct s; reflexivity.
Qed.

(** X17. On an item with title, link, a string snippet and a page map
    that is a dict, the entry [cse_image] decides the outcome.  Absent, or
    an empty list: the result holds the title, the snippet without
    newlines and the link, with [None], respectively the empty list
    itself, as image.  A list that starts with a dict: the image is the
    [src] of that dict, and [KeyError] is raised when it has none.  A
    dict that is not empty: [KeyError] for the key 0. *)
Theorem init_well_formed (members pagemap : list (string * json))
  (title link : json) (s : string) :
  assoc "title" members = Some title ->
  assoc "link" members = Some link ->
  assoc "snippet" members = Some (JStr s) ->
  assoc "pagemap" members = Some (JObj pagemap) ->
  let result image :=
    Return {| SearchResult.title := title;
              SearchResult.snippet := JStr (remove_char newline s);
              SearchResult.link := link;
              SearchResult.image := image |} in
  (assoc "cse_image" pagemap = None ->
   SearchResult.__init__ (JObj members) = result JNull) /\
  (assoc "cse_image" pagemap = Some (JList []) ->
   SearchResult.__init__ (JObj members) = result (JList [])) /\
  (forall first rest,
      assoc "cse_image" pagemap = Some (JList (JObj first :: rest)) ->
      (forall src, assoc "src" first = Some src ->
                   SearchResult.__init__ (JObj members) = result src) /\
      (assoc "src" first = None ->
       SearchResult.__init__ (JObj members) = Throw (KeyError (JStr "src")))) /\
  (forall entry entries,
      assoc "cse_image" pagemap = Some (JObj (entry :: entries)) ->
      SearchResult.__init__ (JObj members) = Throw (KeyError (JInt 0))).
Proof.
  intros Ht Hl Hs Hp result. pose proof (snippet_cleaned s) as Hsnip.
  assert (Hrun : SearchResult.__init__ (JObj members) =
                 (src <~ (let image := match assoc "cse_image" pagemap with
                                       | Some x => x | None => JNull end in
                          if truthy image
                          then first <~ getitem0 image ;; getitem first "src"
                          else Return image) ;;
                  result src)).
  { unfold SearchResult.__init__, getitem at 1 2 3, get_method.
    rewrite Ht, Hl, Hs, Hp. cbn [obind]. rewrite Hsnip. reflexivity. }
  rewrite Hrun. split; [|split; [|split]].
  - intros Hi. now rewrite Hi.
  - intros Hi. now rewrite Hi.
  - intros first rest Hi. rewrite Hi. cbn [truthy getitem0 obind getitem].
    split.
    + intros src Hsrc. now rewrite Hsrc.
    + intros Hsrc. now rewrite Hsrc.
  - intros entry entries Hi. now rewrite Hi.
Qed.

(** ** The further theorems at concrete inputs *)

Lemma setattr_commute_witness :
  exists s,
    (s1 <- __setattr__ Language (none Language) "english" true ;;
     __setattr__ Language s1 "french" true) = Ok s /\
    (s1 <- __setattr__ Language (none Language) "french" true ;;
     __setattr__ Language s1 "english" true) = Ok s.
Proof.
  apply (setattr_commute Language (none Language) "english" "french" true true).
  - reflexivity.
  - apply existsb_In. reflexivity.
  - apply existsb_In. reflexivity.
  - discriminate.
Defined.

Lemma setattr_overwrite_witness :
  (s1 <- __setattr__ Language (none Language) "english" true ;;
   __setattr__ Language s1 "english" false) =
  __setattr__ Language (none Language) "english" false.
Proof.
  apply (setattr_overwrite Language (none Language) "english" true false).
  - reflexivity.
  - apply existsb_In. reflexivity.
Defined.

Lemma from_flags_reads_mapping_witness :
  let flags := [("english", true); ("french", false)]%list in
  exists self,
    from_flags Language flags = Ok self /\
    forall m, In m (flag_values Language) ->
      (forall b, In (m, b) flags -> getattr Language self m = Ok b) /\
      (~ In m (map fst flags) -> getattr Language self m = Ok false).
Proof.
  apply (from_flags_reads_mapping Language
           [("english", true); ("french", false)]%list).
  - reflexivity.
  - apply forallb_incl. reflexivity.
  - apply distinct_NoDup. reflexivity.
Defined.

Lemma from_flags_value_keyword_witness :
  let pre := [("english", inl true)]%list in
  let post := [("french", inr 5)]%list in
  from_flags Language (pre ++ [("value", inr (2 ^ 40))])
  = Ok {| value := 2 ^ 40 |} /\
  from_flags Language (pre ++ ("value", inr (2 ^ 40)) :: post)
  = from_flags_loop Language {| value := 2 ^ 40 |} post.
Proof.
  assert (Hv : ~ In "value" (flag_values Language)).
  { intros H. vm_compute in H. intuition discriminate. }
  assert (Hpre : incl (map fst [("english", @inl bool Z true)]%list)
                      (flag_values Language))
    by (apply forallb_incl; reflexivity).
  exact (from_flags_value_keyword Language
           [("english", inl true)]%list [("french", inr 5)]%list
           (inr (2 ^ 40)) Hv Hpre).
Defined.

Lemma all_none_read_witness :
  (exists a, all Language = Ok a /\ getattr Language a "english" = Ok true) /\
  getattr Language (none Language) "english" = Ok false.
Proof.
  apply (all_none_read Language "english").
  - reflexivity.
  - discriminate.
  - apply existsb_In. reflexivity.
Defined.

Lemma wire_token_bound_witness :
  let self := _from_value 2176 in
  let wire := "lang_en|lang_fr" in
  (wire = join "|" (set_docs Language self) /\
   (0 < List.length (set_docs Language self))%nat /\
   2 * len (set_docs Language self) <= len (flag_values Language)) \/
  (wire = "-(" ++ join "|" (unset_docs Language self) ++ ")" /\
   (0 < List.length (unset_docs Language self))%nat /\
   2 * len (unset_docs Language self) < len (flag_values Language)).
Proof.
  apply (wire_token_bound Language (_from_value 2176) "lang_en|lang_fr").
  - reflexivity.
  - apply in_rangeb_true. reflexivity.
  - reflexivity.
Defined.

Lemma to_google_flags_injective_witness :
  _from_value 2176 = _from_value (2 ^ 7 + 2 ^ 11).
Proof.
  apply (to_google_flags_injective Language (_from_value 2176)
           (_from_value (2 ^ 7 + 2 ^ 11)) "lang_en|lang_fr").
  - reflexivity.
  - reflexivity.
  - apply in_rangeb_true. reflexivity.
  - apply in_rangeb_true. reflexivity.
  - reflexivity.
  - reflexivity.
Defined.

Lemma out_of_range_empty_string_witness :
  to_google_flags Language (_from_value (1 << 35)) = Some EmptyString.
Proof.
  apply (out_of_range_empty_string Language 35).
  - reflexivity.
  - apply Z.leb_le. reflexivity.
  - apply Z.leb_le. reflexivity.
Defined.

Lemma single_flag_encodings_witness :
  (exists s, from_flags Language [("english", true)]%list = Ok s /\
             to_google_flags Language s = Some (doc Language "english")) /\
  (exists a s, all Language = Ok a /\
               __setattr__ Language a "english" false = Ok s /\
               to_google_flags Language s
               = Some ("-(" ++ doc Language "english" ++ ")")).
Proof.
  assert (Hn : In "english" (flag_values Language))
    by (apply existsb_In; reflexivity).
  destruct (single_flag_encodings Language "english" eq_refl Hn) as [H2 H3].
  split.
  - apply H2. apply Z.leb_le. reflexivity.
  - apply H3. apply Z.leb_le. reflexivity.
Defined.

Lemma search_params_lr_witness :
  let params :=
    [ ("q", Search.PStr "rocq"); ("cx", Search.PStr "0013301c62cb228c5");
      ("key", Search.PStr "k"); ("num", Search.PInt 10);
      ("start", Search.PInt 1); ("safe", Search.PStr "active");
      ("lr", Search.PStr "lang_en|lang_fr") ]%list in
  param_lookup "lr" params = Some (Search.PStr "lang_en|lang_fr") <->
  exists flags, Some (_from_value 2176) = Some flags /\
                to_google_flags Language flags = Some "lang_en|lang_fr".
Proof.
  intros params.
  apply (proj2 (search_params_lr
           {| Search.api_key := "k"; Search.engine_id := "0013301c62cb228c5" |}
           "rocq" 10 0 (Some (_from_value 2176)) true params eq_refl)
               "lang_en|lang_fr").
Defined.

Lemma error_is_attribute_error_witness :
  let error := JObj [("code", JInt 429);
                     ("status", JStr "RESOURCE_EXHAUSTED")]%list in
  Search.search_response (JObj [("error", error)]%list)
  = Throw (NoAttribute "status").
Proof.
  intros error.
  apply (error_is_attribute_error (JObj [("error", error)]%list) error);
    reflexivity.
Defined.

Lemma missing_items_key_error_witness :
  Search.search_response (JObj [("kind", JStr "customsearch#search")]%list)
  = Throw (KeyError (JStr "items")).
Proof.
  apply (missing_items_key_error [("kind", JStr "customsearch#search")]%list).
  - intros error H. discriminate H.
  - reflexivity.
Defined.

Lemma snippet_without_newlines_witness :
  let s := String "a" (String newline (String "b" EmptyString)) in
  JStr "ab" = JStr (remove_char newline s) /\
  count (remove_char newline s) newline = O.
Proof.
  intros s.
  apply (proj1 (snippet_without_newlines
                  [("title", JStr "t"); ("snippet", JStr s);
                   ("link", JStr "l"); ("pagemap", JObj [])]%list
                  {| SearchResult.title := JStr "t";
                     SearchResult.snippet := JStr "ab";
                     SearchResult.link := JStr "l";
                     SearchResult.image := JNull |}
                  eq_refl) s eq_refl).
Defined.

Lemma missing_pagemap_key_error_witness :
  SearchResult.__init__
    (JObj [("title", JStr "t"); ("link", JStr "l")]%list)
  = Throw (KeyError (JStr "pagemap")).
Proof.
  apply (missing_pagemap_key_error
           [("title", JStr "t"); ("link", JStr "l")]%list (JStr "t") (JStr "l")).
  - reflexivity.
  - reflexivity.
  - left. reflexivity.
  - reflexivity.
Defined.

Lemma init_well_formed_witness :
  let s := String "a" (String newline (String "b" EmptyString)) in
  let image := JList [JObj [("src", JStr "i")]]%list in
  SearchResult.__init__
    (JObj [("title", JStr "t"); ("snippet", JStr s); ("link", JStr "l");
           ("pagemap", JObj [("cse_image", image)])]%list)
  = Return {| SearchResult.title := JStr "t";
              SearchResult.snippet := JStr (remove_char newline s);
              SearchResult.link := JStr "l";
              SearchResult.image := JStr "i" |}.
Proof.
  intros s image.
  destruct (init_well_formed
              [("title", JStr "t"); ("snippet", JStr s); ("link", JStr "l");
               ("pagemap", JObj [("cse_image", image)])]%list
              [("cse_image", image)]%list (JStr "t") (JStr "l") s
              eq_refl eq_refl eq_refl eq_refl) as [_ [_ [H _]]].
  destruct (H [("src", JStr "i")]%list []%list eq_refl) as [Hsrc _].
  exact (Hsrc (JStr "i") eq_refl).
Defined.
